(** * ChargedUP: numerical core of the RC car case study

    A shallow embedding of the calculation routines of [scripts/chemistry.js]
    and [scripts/physics.js] and of the time-stepped [RCCarSimulator], and the
    properties of them that the specification states. *)

From Stdlib Require Import QArith Qround Qabs Qminmax ZArith Lia Lqa Bool List.
From Stdlib Require Import Sorted RelationClasses String.
Import ListNotations.

(** ** JavaScript numbers

    A JavaScript number is modelled as an exact rational or one of the three
    special values of IEEE 754.  Finite arithmetic is exact (rounding to 53
    bits is not modelled), there is one zero, and it divides as [+0]. *)

Module JS.

Inductive num : Type :=
| Fin (q : Q)
| PInf
| NInf
| NaN.

Definition Qltb (x y : Q) : bool := negb (Qle_bool y x).

(** [q * inf]: the infinity [pos] keeps its sign for a positive [q], turns
    into [neg] for a negative one, and [0 * Infinity] is [NaN]. *)
Definition scale_inf (q : Q) (pos neg : num) : num :=
  if Qeq_bool q 0 then NaN else if Qle_bool 0 q then pos else neg.

Definition neg (a : num) : num :=
  match a with
  | Fin x => Fin (- x)
  | PInf => NInf
  | NInf => PInf
  | NaN => NaN
  end.

Definition add (a b : num) : num :=
  match a, b with
  | Fin x, Fin y => Fin (x + y)
  | NaN, _ | _, NaN => NaN
  | PInf, NInf | NInf, PInf => NaN
  | PInf, _ | _, PInf => PInf
  | NInf, _ | _, NInf => NInf
  end.

Definition sub (a b : num) : num := add a (neg b).

Definition mul (a b : num) : num :=
  match a, b with
  | Fin x, Fin y => Fin (x * y)
  | NaN, _ | _, NaN => NaN
  | Fin x, PInf | PInf, Fin x => scale_inf x PInf NInf
  | Fin x, NInf | NInf, Fin x => scale_inf x NInf PInf
  | PInf, PInf | NInf, NInf => PInf
  | PInf, NInf | NInf, PInf => NInf
  end.

Definition div (a b : num) : num :=
  match a, b with
  | Fin x, Fin y => if Qeq_bool y 0 then scale_inf x PInf NInf else Fin (x / y)
  | NaN, _ | _, NaN => NaN
  | Fin _, PInf | Fin _, NInf => Fin 0
  | PInf, Fin y => if Qle_bool 0 y then PInf else NInf
  | NInf, Fin y => if Qle_bool 0 y then NInf else PInf
  | _, _ => NaN
  end.

(** Comparisons: every comparison with [NaN] is false. *)
Definition le (a b : num) : bool :=
  match a, b with
  | NaN, _ | _, NaN => false
  | Fin x, Fin y => Qle_bool x y
  | NInf, _ | _, PInf => true
  | _, _ => false
  end.

Definition lt (a b : num) : bool :=
  match a, b with
  | NaN, _ | _, NaN => false
  | Fin x, Fin y => Qltb x y
  | NInf, NInf | PInf, PInf => false
  | NInf, _ | _, PInf => true
  | _, _ => false
  end.

Definition ge (a b : num) : bool := le b a.
Definition gt (a b : num) : bool := lt b a.

(** [Math.max], [Math.min], [Math.abs]. *)
Definition max (a b : num) : num :=
  match a, b with
  | NaN, _ | _, NaN => NaN
  | _, _ => if le a b then b else a
  end.

Definition min (a b : num) : num :=
  match a, b with
  | NaN, _ | _, NaN => NaN
  | _, _ => if le a b then a else b
  end.

Definition abs (a : num) : num :=
  match a with
  | Fin x => Fin (Qabs x)
  | PInf | NInf => PInf
  | NaN => NaN
  end.

(** [Math.round]: the nearest integer, a tie going up. *)
Definition round (a : num) : num :=
  match a with
  | Fin x => Fin (inject_Z (Qfloor (x + (1 # 2))))
  | _ => a
  end.

(** A number is falsy when it is [0] or [NaN]. *)
Definition truthy (a : num) : bool :=
  match a with
  | Fin x => negb (Qeq_bool x 0)
  | NaN => false
  | _ => true
  end.

(** A default parameter value: used when the argument is [undefined]. *)
Definition dflt (d : num) (arg : option num) : num :=
  match arg with
  | Some v => v
  | None => d
  end.

(** The same number: rationals are compared by [Qeq]. *)
Definition same (a b : num) : Prop :=
  match a, b with
  | Fin x, Fin y => x == y
  | PInf, PInf | NInf, NInf | NaN, NaN => True
  | _, _ => False
  end.

Definition finite (a : num) : Prop :=
  match a with
  | Fin _ => True
  | _ => False
  end.

(** [a || d] on numbers: [d] replaces a falsy [a]. *)
Definition or_else (a d : num) : num := if truthy a then a else d.

(** [v || d] where [v] is a number or [undefined]. *)
Definition opt_or_else (v : option num) (d : num) : num :=
  match v with
  | Some a => or_else a d
  | None => d
  end.

End JS.

Declare Scope js_scope.
Delimit Scope js_scope with js.
Bind Scope js_scope with JS.num.
Coercion JS.Fin : Q >-> JS.num.
Infix "+" := JS.add : js_scope.
Infix "-" := JS.sub : js_scope.
Infix "*" := JS.mul : js_scope.
Infix "/" := JS.div : js_scope.
Infix "<=?" := JS.le : js_scope.
Infix "<?" := JS.lt : js_scope.
Infix ">=?" := JS.ge (at level 70) : js_scope.
Infix ">?" := JS.gt (at level 70) : js_scope.
Infix "≡" := JS.same (at level 70).

(** ** Battery calculator ([scripts/chemistry.js]) *)

Module Chemistry.

Record Constants : Type := mkConstants {
  FARADAY : JS.num;
  M_ZN : JS.num;
  M_MNO2 : JS.num;
  V_ALKALINE : JS.num;
  V_NIMH : JS.num;
  R_INTERNAL_ALKALINE : JS.num;
  R_INTERNAL_NIMH : JS.num;
  CAPACITY_AA_ALKALINE : JS.num;
  CAPACITY_AA_NIMH : JS.num
}.

Definition CHEMISTRY_CONSTANTS : Constants := {|
  FARADAY := 96485%Q;
  M_ZN := 65.38%Q;
  M_MNO2 := 86.936%Q;
  V_ALKALINE := 1.5%Q;
  V_NIMH := 1.2%Q;
  R_INTERNAL_ALKALINE := 0.3%Q;
  R_INTERNAL_NIMH := 0.02%Q;
  CAPACITY_AA_ALKALINE := 2000%Q;
  CAPACITY_AA_NIMH := 2000%Q
|}.

(** The reagent names ['Zn'] and ['MnO₂']. *)
Inductive Reagent : Type := Zn | MnO2.

(** The object built by [calculateFromMass] ([method: 'stoichiometry']).
    The properties [chargeC], [voltage], [energyJ] and [energyWh], which the
    commercial result has too, carry the prefix [s_] here. *)
Record StoichResult : Type := mkStoich {
  molesZn : JS.num;
  molesMnO2 : JS.num;
  limitingReagent : Reagent;
  excessReagent : Reagent;
  excessMoles : JS.num;
  molesReaction : JS.num;
  molesElectrons : JS.num;
  s_chargeC : JS.num;
  s_voltage : JS.num;
  s_energyJ : JS.num;
  s_energyWh : JS.num;
  capacityMah : JS.num;
  electronsPerRxn : JS.num
}.

(** The object built by [calculateFromCapacity] ([method: 'commercial']). *)
Record CommercialResult : Type := mkCommercial {
  cellCapacityMah : JS.num;
  cellVoltage : JS.num;
  cellCount : JS.num;
  seriesCount : JS.num;
  parallelCount : JS.num;
  packVoltage : JS.num;
  packCapacityMah : JS.num;
  chargeC : JS.num;
  energyJ : JS.num;
  energyWh : JS.num
}.

(** The value of [this.results]: [{}] after construction, then the object of
    the last calculation. *)
Inductive Results : Type :=
| Empty
| Stoichiometry (r : StoichResult)
| Commercial (r : CommercialResult).

Record BatteryCalculator : Type := mkCalc {
  constants : Constants;
  results : Results
}.

(** [constructor()] *)
Definition new : BatteryCalculator :=
  {| constants := CHEMISTRY_CONSTANTS; results := Empty |}.

Local Open Scope js_scope.

(** [calculateFromMass(znMass, mno2Mass, voltage = 1.5, electronsPerRxn = 2)]:
    the returned object and the calculator with [this.results] assigned. *)
Definition calculateFromMass (this : BatteryCalculator)
    (znMass mno2Mass : JS.num) (voltage_arg electronsPerRxn_arg : option JS.num)
  : StoichResult * BatteryCalculator :=
  let voltage := JS.dflt 1.5%Q voltage_arg in
  let electronsPerRxn := JS.dflt 2%Q electronsPerRxn_arg in
  let F := FARADAY (constants this) in
  let Mzn := M_ZN (constants this) in
  let Mmno2 := M_MNO2 (constants this) in
  let molesZn := znMass / Mzn in
  let molesMnO2 := mno2Mass / Mmno2 in
  let znNeeded := molesMnO2 / 2%Q in
  let mno2Needed := molesZn * 2%Q in
  let '(limitingReagent, molesReaction, excessMoles, excessReagent) :=
    if molesZn <=? znNeeded
    then (Zn, molesZn, molesMnO2 - mno2Needed, MnO2)
    else (MnO2, molesMnO2 / 2%Q, molesZn - znNeeded, Zn) in
  let molesElectrons := molesReaction * electronsPerRxn in
  let chargeC := molesElectrons * F in
  let energyJ := voltage * chargeC in
  let energyWh := energyJ / 3600%Q in
  let capacityAh := chargeC / 3600%Q in
  let capacityMah := capacityAh * 1000%Q in
  let r := {|
    molesZn := molesZn;
    molesMnO2 := molesMnO2;
    limitingReagent := limitingReagent;
    excessReagent := excessReagent;
    excessMoles := excessMoles;
    molesReaction := molesReaction;
    molesElectrons := molesElectrons;
    s_chargeC := chargeC;
    s_voltage := voltage;
    s_energyJ := energyJ;
    s_energyWh := energyWh;
    capacityMah := capacityMah;
    electronsPerRxn := electronsPerRxn
  |} in
  (r, {| constants := constants this; results := Stoichiometry r |}).

(** [calculateFromCapacity(capacityMah, voltage, cellCount = 1,
    seriesCount = 1, parallelCount = 1)] *)
Definition calculateFromCapacity (this : BatteryCalculator)
    (capacityMah voltage : JS.num)
    (cellCount_arg seriesCount_arg parallelCount_arg : option JS.num)
  : CommercialResult * BatteryCalculator :=
  let cellCount := JS.dflt 1%Q cellCount_arg in
  let seriesCount := JS.dflt 1%Q seriesCount_arg in
  let parallelCount := JS.dflt 1%Q parallelCount_arg in
  let capacityAh := capacityMah / 1000%Q in
  let chargeC := capacityAh * 3600%Q in
  let packVoltage := voltage * seriesCount in
  let packCapacityMah := capacityMah * parallelCount in
  let packChargeC := chargeC * parallelCount in
  let energyJ := packVoltage * packChargeC in
  let energyWh := energyJ / 3600%Q in
  let r := {|
    cellCapacityMah := capacityMah;
    cellVoltage := voltage;
    cellCount := cellCount;
    seriesCount := seriesCount;
    parallelCount := parallelCount;
    packVoltage := packVoltage;
    packCapacityMah := packCapacityMah;
    chargeC := packChargeC;
    energyJ := energyJ;
    energyWh := energyWh
  |} in
  (r, {| constants := constants this; results := Commercial r |}).

(** The object of [calculateLoadedVoltage]; [l_current] and [l_internalR]
    are its properties [current] and [internalR]. *)
Record Loaded : Type := mkLoaded {
  openCircuitVoltage : JS.num;
  loadedVoltage : JS.num;
  voltageDrop : JS.num;
  l_current : JS.num;
  l_internalR : JS.num;
  powerLossW : JS.num
}.

(** [calculateLoadedVoltage(packVoltage, current, internalR)] *)
Definition calculateLoadedVoltage (packVoltage current internalR : JS.num)
  : Loaded :=
  let voltageDrop := current * internalR in
  let loadedVoltage := packVoltage - voltageDrop in
  let powerLoss := current * current * internalR in
  {| openCircuitVoltage := packVoltage;
     loadedVoltage := JS.max 0%Q loadedVoltage;
     voltageDrop := voltageDrop;
     l_current := current;
     l_internalR := internalR;
     powerLossW := powerLoss |}.

(** The object of [estimateRuntime]; the early return has only [hours] and
    [minutes], the properties [capacityMah] and [currentA] ([r_capacityMah],
    [r_currentA]) are then [undefined].  The constant [note] is left out. *)
Record Runtime : Type := mkRuntime {
  hours : JS.num;
  minutes : JS.num;
  r_capacityMah : option JS.num;
  r_currentA : option JS.num
}.

(** [estimateRuntime(capacityMah, currentA)]; it neither reads nor writes
    [this]. *)
Definition estimateRuntime (capacityMah currentA : JS.num) : Runtime :=
  if currentA <=? 0%Q
  then {| hours := JS.PInf; minutes := JS.PInf;
          r_capacityMah := None; r_currentA := None |}
  else
    let capacityAh := capacityMah / 1000%Q in
    let hours := capacityAh / currentA in
    let minutes := hours * 60%Q in
    {| hours := hours; minutes := minutes;
       r_capacityMah := Some capacityMah; r_currentA := Some currentA |}.

(** [generateWorkSteps()]: the empty string unless [this.results] is a
    stoichiometry result; otherwise the HTML of the six worked steps, which is
    represented by the result and the Faraday constant it interpolates. *)
Inductive WorkSteps : Type :=
| NoSteps
| Steps (r : StoichResult) (F : JS.num).

Definition generateWorkSteps (this : BatteryCalculator) : WorkSteps :=
  match results this with
  | Stoichiometry r => Steps r (FARADAY (constants this))
  | _ => NoSteps
  end.

End Chemistry.

(** ** The battery calculator page ([BatteryCalculatorUI]) *)

Module BatteryUI.

Import Chemistry.
Local Open Scope js_scope.

(** The values of the page's inputs as [parseFloat] and [parseInt] return
    them, [NaN] for a missing or unreadable input, and the value of the mode
    select, [None] when it is missing. *)
Record Inputs : Type := mkInputs {
  inputMode : option string;
  inputVoltage : JS.num;
  inputSeries : JS.num;
  inputParallel : JS.num;
  inputInternalR : JS.num;
  inputMotorCurrent : JS.num;
  inputZnMass : JS.num;
  inputMno2Mass : JS.num;
  inputCapacity : JS.num
}.

(** [this.lastResults]: the properties of the calculation's result, then
    the five properties [calculate()] adds; its [packVoltage] replaces the
    equal [packVoltage] of a commercial result. *)
Record LastResults : Type := mkLast {
  l_results : Results;
  loadedResults : option Loaded;
  runtime : option Runtime;
  l_packVoltage : JS.num;
  packInternalR : JS.num;
  motorCurrent : JS.num
}.

(** [mode === 'stoichiometry'], the mode being the select's value or
    ['commercial']. *)
Definition stoichiometry_mode (i : Inputs) : bool :=
  match inputMode i with
  | Some m => String.eqb m "stoichiometry"
  | None => false
  end.

(** [results.packCapacityMah || results.capacityMah || 0] *)
Definition resultCapacity (r : Results) : JS.num :=
  match r with
  | Commercial c => JS.or_else (packCapacityMah c) 0%Q
  | Stoichiometry st => JS.or_else (capacityMah st) 0%Q
  | Empty => 0%Q
  end.

(** [calculate()]: the last results and the calculator after the call. *)
Definition calculate (calculator : BatteryCalculator) (i : Inputs)
  : LastResults * BatteryCalculator :=
  let voltage := JS.or_else (inputVoltage i) 1.5%Q in
  let series := JS.or_else (inputSeries i) 1%Q in
  let parallel := JS.or_else (inputParallel i) 1%Q in
  let internalR := JS.or_else (inputInternalR i) 0.3%Q in
  let motorCurrent := JS.or_else (inputMotorCurrent i) 0%Q in
  let '(results, calculator) :=
    if stoichiometry_mode i then
      let znMass := JS.or_else (inputZnMass i) 1%Q in
      let mno2Mass := JS.or_else (inputMno2Mass i) 2%Q in
      let '(r, c) :=
        calculateFromMass calculator znMass mno2Mass (Some voltage) None in
      (Stoichiometry r, c)
    else
      let capacity := JS.or_else (inputCapacity i) 2000%Q in
      let '(r, c) :=
        calculateFromCapacity calculator capacity voltage
          (Some (series * parallel)) (Some series) (Some parallel) in
      (Commercial r, c) in
  let packVoltage := voltage * series in
  let packInternalR := internalR * series / parallel in
  let loadedResults :=
    if motorCurrent >? 0%Q
    then Some (calculateLoadedVoltage packVoltage motorCurrent packInternalR)
    else None in
  let capacityMah := resultCapacity results in
  let runtime :=
    if motorCurrent >? 0%Q
    then Some (estimateRuntime capacityMah motorCurrent)
    else None in
  ({| l_results := results; loadedResults := loadedResults;
      runtime := runtime; l_packVoltage := packVoltage;
      packInternalR := packInternalR; motorCurrent := motorCurrent |},
   calculator).



End BatteryUI.

(** ** Motor speed estimator ([scripts/physics.js]) *)

Module Motor.

(** A motor preset; [noLoadRPM] is [null] for a coil that does not rotate. *)
Record Preset : Type := mkPreset {
  armatureR : JS.num;
  coilTurns : JS.num;
  coilRadius : JS.num;
  coilLength : JS.num;
  ratedVoltage : JS.num;
  noLoadRPM : option JS.num
}.

Definition small_dc_motor : Preset := {|
  armatureR := 3%Q; coilTurns := 50%Q; coilRadius := 0.01%Q;
  coilLength := 0.02%Q; ratedVoltage := 6%Q; noLoadRPM := Some (JS.Fin 6000)
|}.

Definition hobby_motor : Preset := {|
  armatureR := 0.5%Q; coilTurns := 30%Q; coilRadius := 0.018%Q;
  coilLength := 0.035%Q; ratedVoltage := 7.2%Q; noLoadRPM := Some (JS.Fin 15000)
|}.

Definition demo_solenoid : Preset := {|
  armatureR := 2%Q; coilTurns := 100%Q; coilRadius := 0.015%Q;
  coilLength := 0.05%Q; ratedVoltage := 6%Q; noLoadRPM := None
|}.

Record MotorSpeedEstimator : Type := mkEstimator {
  preset : Preset
}.

(** [constructor(preset = MOTOR_PRESETS['small-dc-motor'])] *)
Definition new (preset_arg : option Preset) : MotorSpeedEstimator :=
  {| preset := match preset_arg with Some p => p | None => small_dc_motor end |}.

(** The object of [estimateSpeed].  [rpm] is a number or [null]; the three
    properties formatted with [toFixed] hold the number that is formatted and
    are [undefined] in the early return. *)
Record Speed : Type := mkSpeed {
  rpm : option JS.num;
  speedPercent : option JS.num;
  effectiveVoltage : option JS.num;
  backEMFvoltage : option JS.num
}.

(** [!noLoadRPM]: [null], [0] and [NaN] are falsy. *)
Definition falsy (v : option JS.num) : bool :=
  match v with
  | None => true
  | Some n => negb (JS.truthy n)
  end.

Local Open Scope js_scope.

(** [estimateSpeed(current, supplyVoltage)] *)
Definition estimateSpeed (this : MotorSpeedEstimator)
    (current supplyVoltage : JS.num) : Speed :=
  let noLoadRPM := noLoadRPM (preset this) in
  let ratedVoltage := ratedVoltage (preset this) in
  let armatureR := armatureR (preset this) in
  match noLoadRPM with
  | Some noLoad =>
      if JS.truthy noLoad then
        let voltageRatio := JS.min (supplyVoltage / ratedVoltage) 1.5%Q in
        let backEMFvoltage := current * armatureR in
        let effectiveVoltage := supplyVoltage - backEMFvoltage in
        let speedRatio := JS.max 0%Q (effectiveVoltage / ratedVoltage) in
        let rpm := noLoad * speedRatio * voltageRatio in
        {| rpm := Some (JS.round rpm);
           speedPercent := Some (speedRatio * 100%Q);
           effectiveVoltage := Some effectiveVoltage;
           backEMFvoltage := Some backEMFvoltage |}
      else
        {| rpm := None; speedPercent := None;
           effectiveVoltage := None; backEMFvoltage := None |}
  | None =>
      {| rpm := None; speedPercent := None;
         effectiveVoltage := None; backEMFvoltage := None |}
  end.

(** The two notes of [computeLoadedCurrent]. *)
Inductive CurrentNote : Type := InvalidResistance | SteadyState.

(** The object of [computeLoadedCurrent]; the early return has only
    [current] and [note].  [lc_current], [lc_supplyVoltage], [lc_motorR],
    [lc_internalR] and [lc_note] are its properties [current],
    [supplyVoltage], [motorR], [internalR] and [note]. *)
Record LoadedCurrent : Type := mkLoadedCurrent {
  lc_current : JS.num;
  lc_supplyVoltage : option JS.num;
  lc_motorR : option JS.num;
  lc_internalR : option JS.num;
  totalR : option JS.num;
  powerMotor : option JS.num;
  powerLoss : option JS.num;
  lc_note : CurrentNote
}.

(** [computeLoadedCurrent(supplyVoltage, motorR, internalR = 0)]; it does not
    read [this]. *)
Definition computeLoadedCurrent (supplyVoltage motorR : JS.num)
    (internalR_arg : option JS.num) : LoadedCurrent :=
  let internalR := JS.dflt 0%Q internalR_arg in
  let totalR := motorR + internalR in
  if totalR <=? 0%Q then
    {| lc_current := 0%Q; lc_supplyVoltage := None; lc_motorR := None;
       lc_internalR := None; totalR := None; powerMotor := None;
       powerLoss := None; lc_note := InvalidResistance |}
  else
    let current := supplyVoltage / totalR in
    {| lc_current := current;
       lc_supplyVoltage := Some supplyVoltage;
       lc_motorR := Some motorR;
       lc_internalR := Some internalR;
       totalR := Some totalR;
       powerMotor := Some (current * current * motorR);
       powerLoss := Some (current * current * internalR);
       lc_note := SteadyState |}.

(** [getGaugeAngle(rpm)] *)
Definition getGaugeAngle (this : MotorSpeedEstimator) (rpm : JS.num)
  : JS.num :=
  let maxRPM := JS.opt_or_else (noLoadRPM (preset this)) 6000%Q in
  let ratio := JS.min (rpm / maxRPM) 1%Q in
  (-90)%Q + (ratio * 180%Q).

End Motor.

(** ** Magnetic field calculator ([scripts/physics.js]) *)

Module Field.

Local Open Scope js_scope.

(** [Math.PI]: the binary64 number nearest to pi, which is exactly
    [884279719003555 / 2^48] (it prints as 3.141592653589793). *)
Definition PI : JS.num := (884279719003555 # 281474976710656)%Q.

(** [PHYSICS_CONSTANTS]: [MU_0] and the table [MU_R]; [MOTOR_DEFAULTS] is
    read nowhere. *)
Record Constants : Type := mkConstants {
  MU_0 : JS.num;
  MU_R : list (string * JS.num)
}.

Definition PHYSICS_CONSTANTS : Constants := {|
  MU_0 := 4%Q * PI * 1e-7%Q;
  MU_R := [("air"%string, JS.Fin 1); ("ferrite"%string, JS.Fin 2000);
           ("iron"%string, JS.Fin 4000); ("steel"%string, JS.Fin 4500)]
|}.

(** The [material] argument: a number or a name. *)
Inductive Material : Type :=
| MatNumber (n : JS.num)
| MatName (name : string).

(** The property names every object inherits from [Object.prototype]. *)
Definition inherited_names : list string :=
  ["constructor"; "toString"; "toLocaleString"; "valueOf"; "hasOwnProperty";
   "isPrototypeOf"; "propertyIsEnumerable"; "__proto__"; "__defineGetter__";
   "__defineSetter__"; "__lookupGetter__"; "__lookupSetter__"]%string.

Fixpoint own (table : list (string * JS.num)) (name : string)
  : option JS.num :=
  match table with
  | [] => None
  | (k, v) :: rest => if String.eqb k name then Some v else own rest name
  end.

(** [this.constants.MU_R[material] || 1] as the number the product uses: the
    value of the table when it is truthy; [NaN] for an inherited name, whose
    value is a function or an object, truthy and not a number; 1 for any
    other name. *)
Definition lookup_muR (table : list (string * JS.num)) (name : string)
  : JS.num :=
  match own table name with
  | Some v => JS.or_else v 1%Q
  | None =>
      if existsb (String.eqb name) inherited_names then JS.NaN else 1%Q
  end.

Record MagneticFieldCalculator : Type := mkCalc {
  constants : Constants
}.

(** [constructor()] *)
Definition new : MagneticFieldCalculator :=
  {| constants := PHYSICS_CONSTANTS |}.

(** The objects of the three field functions: the field in T, mT and uT and
    the inputs; [in_turns] and [in_muR] are missing where the function has
    no such input, and [in_size] is the length, radius or distance. *)
Record FieldResult : Type := mkField {
  B : JS.num;
  B_mT : JS.num;
  B_uT : JS.num;
  in_turns : option JS.num;
  in_current : JS.num;
  in_size : JS.num;
  in_muR : option JS.num
}.

(** [computeBFieldSolenoid(turns, current, length, material = 'air')] *)
Definition computeBFieldSolenoid (this : MagneticFieldCalculator)
    (turns current length : JS.num) (material_arg : option Material)
  : FieldResult :=
  let material :=
    match material_arg with Some m => m | None => MatName "air" end in
  let mu0 := MU_0 (constants this) in
  let muR :=
    match material with
    | MatNumber n => n
    | MatName name => lookup_muR (MU_R (constants this)) name
    end in
  let B := mu0 * muR * turns * current / length in
  {| B := B; B_mT := B * 1000%Q; B_uT := B * 1e6%Q;
     in_turns := Some turns; in_current := current; in_size := length;
     in_muR := Some muR |}.

(** [computeBFieldLoop(turns, current, radius)] *)
Definition computeBFieldLoop (this : MagneticFieldCalculator)
    (turns current radius : JS.num) : FieldResult :=
  let mu0 := MU_0 (constants this) in
  let B := mu0 * turns * current / (2%Q * radius) in
  {| B := B; B_mT := B * 1000%Q; B_uT := B * 1e6%Q;
     in_turns := Some turns; in_current := current; in_size := radius;
     in_muR := None |}.

(** [computeBFieldWire(current, distance)] *)
Definition computeBFieldWire (this : MagneticFieldCalculator)
    (current distance : JS.num) : FieldResult :=
  let mu0 := MU_0 (constants this) in
  let B := mu0 * current / (2%Q * PI * distance) in
  {| B := B; B_mT := B * 1000%Q; B_uT := B * 1e6%Q;
     in_turns := None; in_current := current; in_size := distance;
     in_muR := None |}.

End Field.

(** ** The motor simulator page ([MotorSimulatorUI]) *)

Module MotorUI.

Local Open Scope js_scope.

(** The input elements of the page.  An element the page does not have is
    [None]; for one it has, the number [parseFloat] or [parseInt] reads from
    its value, [NaN] when the value is empty or unreadable, and for the
    material select its value. *)
Record Inputs : Type := mkInputs {
  inputVoltage : option JS.num;
  inputCurrent : option JS.num;
  inputMotorR : option JS.num;
  inputCoilTurns : option JS.num;
  inputCoilLength : option JS.num;
  inputMaterial : option string;
  inputBatteryR : option JS.num
}.


Record MotorSimulatorUI : Type := mkUI {
  fieldCalc : Field.MagneticFieldCalculator;
  speedEstimator : Motor.MotorSpeedEstimator
}.

(** [constructor()], before [init()] *)
Definition new : MotorSimulatorUI :=
  {| fieldCalc := Field.new; speedEstimator := Motor.new None |}.

(** [loadPreset(presetKey)] as far as it replaces the speed estimator;
    [preset] is [MOTOR_PRESETS[presetKey]], [None] for an unknown key. *)
Definition loadPreset (this : MotorSimulatorUI) (preset : option Motor.Preset)
  : MotorSimulatorUI :=
  match preset with
  | Some p =>
      {| fieldCalc := fieldCalc this; speedEstimator := Motor.new (Some p) |}
  | None => this
  end.

(** [this.lastResults] of [calculate()] *)
Record LastResults : Type := mkLast {
  bField : Field.FieldResult;
  current : Motor.LoadedCurrent;
  speed : Motor.Speed
}.

(** [calculate()]: the three calculations on the inputs and their defaults;
    [parseFloat(this.inputX?.value) || d] is [d] for a missing element. *)
Definition calculate (this : MotorSimulatorUI) (i : Inputs) : LastResults :=
  let voltage := JS.opt_or_else (inputVoltage i) 6%Q in
  let current := JS.opt_or_else (inputCurrent i) 1%Q in
  let motorR := JS.opt_or_else (inputMotorR i) 3%Q in
  let coilTurns := JS.opt_or_else (inputCoilTurns i) 50%Q in
  let coilLengthCm := JS.opt_or_else (inputCoilLength i) 5%Q in
  let coilLength := coilLengthCm / 100%Q in
  let material :=
    match inputMaterial i with
    | Some name => if String.eqb name "" then "air"%string else name
    | None => "air"%string
    end in
  let batteryR := JS.opt_or_else (inputBatteryR i) 0%Q in
  let bFieldResult :=
    Field.computeBFieldSolenoid (fieldCalc this) coilTurns current coilLength
      (Some (Field.MatName material)) in
  let currentResult :=
    Motor.computeLoadedCurrent voltage motorR (Some batteryR) in
  let speedResult :=
    Motor.estimateSpeed (speedEstimator this) current voltage in
  {| bField := bFieldResult; current := currentResult;
     speed := speedResult |}.

(** The dial of [displayResults]: the gauge turns only for a speed that is
    not [null]. *)
Definition gaugeAngle (this : MotorSimulatorUI) (r : LastResults)
  : option JS.num :=
  match Motor.rpm (speed r) with
  | Some rpm => Some (Motor.getGaugeAngle (speedEstimator this) rpm)
  | None => None
  end.


End MotorUI.

(** ** The browser's [localStorage]: a map from keys to stored texts *)

Module Storage.

Definition t : Type := string -> option string.

Definition empty : t := fun _ => None.

Definition getItem (s : t) (key : string) : option string := s key.

Definition setItem (s : t) (key value : string) : t :=
  fun k => if String.eqb k key then Some value else s k.

Definition removeItem (s : t) (key : string) : t :=
  fun k => if String.eqb k key then None else s k.

Definition clear (s : t) : t := empty.

(** A text is falsy when it is empty, and so is a missing item. *)
Definition truthy (v : option string) : bool :=
  match v with
  | Some text => negb (String.eqb text "")
  | None => false
  end.

End Storage.

(** ** Settings and stored data ([scripts/main.js]) *)

Module Main.

Definition THEME : string := "chargedup-theme".
Definition TEXT_SIZE : string := "chargedup-text-size".
Definition CHEMISTRY_DATA : string := "chargedup-chemistry-data".

(** The two attributes of the document element the settings write. *)
Record Document : Type := mkDocument {
  data_theme : option string;
  data_text_size : option string
}.

(** A page as loaded: no attribute set. *)
Definition loaded : Document :=
  {| data_theme := None; data_text_size := None |}.

(** [initTheme()] *)
Definition initTheme (store : Storage.t) (doc : Document) : Document :=
  let savedTheme :=
    match Storage.getItem store THEME with
    | Some theme =>
        if Storage.truthy (Some theme) then theme else "dark"%string
    | None => "dark"%string
    end in
  let doc := mkDocument (Some savedTheme) (data_text_size doc) in
  let savedTextSize := Storage.getItem store TEXT_SIZE in
  match savedTextSize with
  | Some size =>
      if Storage.truthy savedTextSize
      then mkDocument (data_theme doc) (Some size)
      else doc
  | None => doc
  end.

(** [setTheme(theme)] *)
Definition setTheme (theme : string) (page : Storage.t * Document)
  : Storage.t * Document :=
  let '(store, doc) := page in
  (Storage.setItem store THEME theme,
   mkDocument (Some theme) (data_text_size doc)).

(** [setTextSize(size)] *)
Definition setTextSize (size : string) (page : Storage.t * Document)
  : Storage.t * Document :=
  let '(store, doc) := page in
  if String.eqb size "default"
  then (Storage.removeItem store TEXT_SIZE, mkDocument (data_theme doc) None)
  else (Storage.setItem store TEXT_SIZE size,
        mkDocument (data_theme doc) (Some size)).

(** [saveChemistryData(data)], [json] being [JSON.stringify(data)];
    [getChemistryData()] up to [JSON.parse]: the stored text, [None] for
    [null]; and [clearChemistryData()]. *)
Definition saveChemistryData (json : string) (store : Storage.t)
  : Storage.t :=
  Storage.setItem store CHEMISTRY_DATA json.

Definition getChemistryData (store : Storage.t) : option string :=
  let data := Storage.getItem store CHEMISTRY_DATA in
  if Storage.truthy data then data else None.

Definition clearChemistryData (store : Storage.t) : Storage.t :=
  Storage.removeItem store CHEMISTRY_DATA.

End Main.

(** ** What the pages write to and read from [localStorage] *)

Module Pages.

(** The writes of the pages, each with the text it stores:
    [transferToPhysics()] of the battery page, [autoSaveForIntegrated()] of
    the motor page, the two settings, and the settings panel's button that
    clears all data.  [calculate()] of the battery page stores nothing: the
    [AppState] it asks for is not part of [window.ChargedUP]. *)
Inductive Write : Type :=
| TransferToPhysics (json : string)
| AutoSaveForIntegrated (json : string)
| SetTheme (theme : string)
| SetTextSize (size : string)
| ClearData.

Definition write (store : Storage.t) (w : Write) : Storage.t :=
  match w with
  | TransferToPhysics json =>
      Storage.setItem store "chargedup_battery_for_physics" json
  | AutoSaveForIntegrated json =>
      Storage.setItem store "chargedup_motor_for_integrated" json
  | SetTheme theme => fst (Main.setTheme theme (store, Main.loaded))
  | SetTextSize size => fst (Main.setTextSize size (store, Main.loaded))
  | ClearData => Storage.clear store
  end.

Definition writes (store : Storage.t) (ws : list Write) : Storage.t :=
  fold_left write ws store.

(** The write clears all data; the write sets the theme; the write sets
    the text size. *)
Definition is_clear (w : Write) : bool :=
  match w with
  | ClearData => true
  | _ => false
  end.

Definition is_theme (w : Write) : bool :=
  match w with
  | SetTheme _ => true
  | _ => false
  end.

Definition is_text_size (w : Write) : bool :=
  match w with
  | SetTextSize _ => true
  | _ => false
  end.

End Pages.


(** ** The RC car simulator (class [RCCarSimulator]) *)

Module RCCar.

(** [this.state]; [lapCount] is only ever [0] or incremented, an integer. *)
Record State : Type := mkState {
  position : JS.num;
  velocity : JS.num;
  acceleration : JS.num;
  batteryCharge : JS.num;
  lapCount : Z;
  lapTime : JS.num;
  bestLapTime : JS.num;
  totalEnergy : JS.num;
  isRunning : bool
}.

(** [this.params] *)
Record Params : Type := mkParams {
  mass : JS.num;
  wheelRadius : JS.num;
  motorEfficiency : JS.num;
  frictionCoeff : JS.num;
  airResistance : JS.num;
  maxTorque : JS.num;
  batteryVoltage : JS.num;
  batteryCurrent : JS.num;
  batteryCapacity : JS.num;
  internalR : JS.num;
  throttle : JS.num
}.

(** [this.track]; the pixel sizes and the car's drawing position are left
    out, the physics reads [length] only. *)
Record Track : Type := mkTrack {
  length : JS.num
}.

Record Sim : Type := mkSim {
  state : State;
  params : Params;
  track : Track;
  lastTime : JS.num
}.

Definition initialState : State := {|
  position := 0%Q;
  velocity := 0%Q;
  acceleration := 0%Q;
  batteryCharge := 100%Q;
  lapCount := 0;
  lapTime := 0%Q;
  bestLapTime := JS.PInf;
  totalEnergy := 0%Q;
  isRunning := false
|}.

Definition defaultParams : Params := {|
  mass := 0.5%Q;
  wheelRadius := 0.02%Q;
  motorEfficiency := 0.7%Q;
  frictionCoeff := 0.3%Q;
  airResistance := 0.05%Q;
  maxTorque := 0.1%Q;
  batteryVoltage := 6%Q;
  batteryCurrent := 1%Q;
  batteryCapacity := 2000%Q;
  internalR := 1.2%Q;
  throttle := 0%Q
|}.

(** [constructor(containerId)] *)
Definition new : Sim := {|
  state := initialState;
  params := defaultParams;
  track := {| length := 20%Q |};
  lastTime := 0%Q
|}.

(** Assignments to one property of [this.state] or [this.params]. *)
Definition set_position (v : JS.num) (this : Sim) : Sim :=
  let s := state this in
  mkSim (mkState v (velocity s) (acceleration s) (batteryCharge s) (lapCount s)
           (lapTime s) (bestLapTime s) (totalEnergy s) (isRunning s))
        (params this) (track this) (lastTime this).

Definition set_velocity (v : JS.num) (this : Sim) : Sim :=
  let s := state this in
  mkSim (mkState (position s) v (acceleration s) (batteryCharge s) (lapCount s)
           (lapTime s) (bestLapTime s) (totalEnergy s) (isRunning s))
        (params this) (track this) (lastTime this).

Definition set_acceleration (v : JS.num) (this : Sim) : Sim :=
  let s := state this in
  mkSim (mkState (position s) (velocity s) v (batteryCharge s) (lapCount s)
           (lapTime s) (bestLapTime s) (totalEnergy s) (isRunning s))
        (params this) (track this) (lastTime this).

Definition set_batteryCharge (v : JS.num) (this : Sim) : Sim :=
  let s := state this in
  mkSim (mkState (position s) (velocity s) (acceleration s) v (lapCount s)
           (lapTime s) (bestLapTime s) (totalEnergy s) (isRunning s))
        (params this) (track this) (lastTime this).

Definition set_lapCount (v : Z) (this : Sim) : Sim :=
  let s := state this in
  mkSim (mkState (position s) (velocity s) (acceleration s) (batteryCharge s) v
           (lapTime s) (bestLapTime s) (totalEnergy s) (isRunning s))
        (params this) (track this) (lastTime this).

Definition set_lapTime (v : JS.num) (this : Sim) : Sim :=
  let s := state this in
  mkSim (mkState (position s) (velocity s) (acceleration s) (batteryCharge s)
           (lapCount s) v (bestLapTime s) (totalEnergy s) (isRunning s))
        (params this) (track this) (lastTime this).

Definition set_bestLapTime (v : JS.num) (this : Sim) : Sim :=
  let s := state this in
  mkSim (mkState (position s) (velocity s) (acceleration s) (batteryCharge s)
           (lapCount s) (lapTime s) v (totalEnergy s) (isRunning s))
        (params this) (track this) (lastTime this).

Definition set_totalEnergy (v : JS.num) (this : Sim) : Sim :=
  let s := state this in
  mkSim (mkState (position s) (velocity s) (acceleration s) (batteryCharge s)
           (lapCount s) (lapTime s) (bestLapTime s) v (isRunning s))
        (params this) (track this) (lastTime this).

Definition set_isRunning (v : bool) (this : Sim) : Sim :=
  let s := state this in
  mkSim (mkState (position s) (velocity s) (acceleration s) (batteryCharge s)
           (lapCount s) (lapTime s) (bestLapTime s) (totalEnergy s) v)
        (params this) (track this) (lastTime this).

Definition set_throttle (v : JS.num) (this : Sim) : Sim :=
  let p := params this in
  mkSim (state this)
        (mkParams (mass p) (wheelRadius p) (motorEfficiency p) (frictionCoeff p)
           (airResistance p) (maxTorque p) (batteryVoltage p) (batteryCurrent p)
           (batteryCapacity p) (internalR p) v)
        (track this) (lastTime this).

Definition set_mass (v : JS.num) (this : Sim) : Sim :=
  let p := params this in
  mkSim (state this)
        (mkParams v (wheelRadius p) (motorEfficiency p) (frictionCoeff p)
           (airResistance p) (maxTorque p) (batteryVoltage p) (batteryCurrent p)
           (batteryCapacity p) (internalR p) (throttle p))
        (track this) (lastTime this).

Definition set_frictionCoeff (v : JS.num) (this : Sim) : Sim :=
  let p := params this in
  mkSim (state this)
        (mkParams (mass p) (wheelRadius p) (motorEfficiency p) v
           (airResistance p) (maxTorque p) (batteryVoltage p) (batteryCurrent p)
           (batteryCapacity p) (internalR p) (throttle p))
        (track this) (lastTime this).

Definition set_batteryVoltage (v : JS.num) (this : Sim) : Sim :=
  let p := params this in
  mkSim (state this)
        (mkParams (mass p) (wheelRadius p) (motorEfficiency p) (frictionCoeff p)
           (airResistance p) (maxTorque p) v (batteryCurrent p)
           (batteryCapacity p) (internalR p) (throttle p))
        (track this) (lastTime this).

Definition set_batteryCurrent (v : JS.num) (this : Sim) : Sim :=
  let p := params this in
  mkSim (state this)
        (mkParams (mass p) (wheelRadius p) (motorEfficiency p) (frictionCoeff p)
           (airResistance p) (maxTorque p) (batteryVoltage p) v
           (batteryCapacity p) (internalR p) (throttle p))
        (track this) (lastTime this).

Definition set_batteryCapacity (v : JS.num) (this : Sim) : Sim :=
  let p := params this in
  mkSim (state this)
        (mkParams (mass p) (wheelRadius p) (motorEfficiency p) (frictionCoeff p)
           (airResistance p) (maxTorque p) (batteryVoltage p) (batteryCurrent p)
           v (internalR p) (throttle p))
        (track this) (lastTime this).

Definition set_internalR (v : JS.num) (this : Sim) : Sim :=
  let p := params this in
  mkSim (state this)
        (mkParams (mass p) (wheelRadius p) (motorEfficiency p) (frictionCoeff p)
           (airResistance p) (maxTorque p) (batteryVoltage p) (batteryCurrent p)
           (batteryCapacity p) v (throttle p))
        (track this) (lastTime this).

Definition set_lastTime (v : JS.num) (this : Sim) : Sim :=
  mkSim (state this) (params this) (track this) v.

Local Open Scope js_scope.

Definition calculateMotorForce (this : Sim) : JS.num :=
  let torque := maxTorque (params this) * throttle (params this) in
  let force := (torque / wheelRadius (params this)) * motorEfficiency (params this) in
  force.

Definition calculateFriction (this : Sim) : JS.num :=
  let normalForce := mass (params this) * 9.81%Q in
  let friction := frictionCoeff (params this) * normalForce in
  if velocity (state this) >? 0%Q then JS.neg friction else 0%Q.

Definition calculateAirResistance (this : Sim) : JS.num :=
  let airDrag := airResistance (params this) * velocity (state this)
                 * JS.abs (velocity (state this)) in
  JS.neg airDrag.

Definition calculateAcceleration (this : Sim) : JS.num :=
  let motorForce := calculateMotorForce this in
  let friction := calculateFriction this in
  let airDrag := calculateAirResistance this in
  let netForce := motorForce + friction + airDrag in
  let acceleration := netForce / mass (params this) in
  acceleration.

Definition updateBattery (this : Sim) (dt : JS.num) : Sim :=
  if throttle (params this) >? 0%Q then
    let power := batteryVoltage (params this) * batteryCurrent (params this)
                 * throttle (params this) in
    let energyUsed := power * dt in
    let this := set_totalEnergy (totalEnergy (state this) + energyUsed) this in
    let fullCapacity := batteryVoltage (params this)
                        * (batteryCapacity (params this) * 3.6%Q) in
    set_batteryCharge
      (JS.max 0%Q (100%Q - (totalEnergy (state this) / fullCapacity * 100%Q)))
      this
  else this.

(** [updatePhysics(dt)], statement by statement. *)
Definition updatePhysics (this : Sim) (dt : JS.num) : Sim :=
  let this :=
    if batteryCharge (state this) <=? 0%Q then set_throttle 0%Q this else this in
  let this := set_acceleration (calculateAcceleration this) this in
  let this :=
    set_velocity (velocity (state this) + acceleration (state this) * dt) this in
  let this := set_velocity (JS.max 0%Q (velocity (state this))) this in
  let this :=
    set_position (position (state this) + velocity (state this) * dt) this in
  let this :=
    if position (state this) >=? length (track this) then
      let this :=
        set_position (position (state this) - length (track this)) this in
      let this := set_lapCount (lapCount (state this) + 1)%Z this in
      let this :=
        if (lapTime (state this) >? 0%Q)
           && (lapTime (state this) <? bestLapTime (state this))
        then set_bestLapTime (lapTime (state this)) this
        else this in
      set_lapTime 0%Q this
    else this in
  let this := set_lapTime (lapTime (state this) + dt) this in
  updateBattery this dt.

(** The physics part of [animate(timestamp)]: the frame time is clamped to
    0.1 s and the physics runs only while [isRunning]. *)
Definition animate (this : Sim) (timestamp : JS.num) : Sim :=
  let this :=
    if JS.truthy (lastTime this) then this else set_lastTime timestamp this in
  let dt := JS.min ((timestamp - lastTime this) / 1000%Q) 0.1%Q in
  let this := set_lastTime timestamp this in
  if isRunning (state this) then updatePhysics this dt else this.

(** The throttle slider's [input] handler, [value] being the slider's value
    in percent. *)
Definition onThrottleInput (this : Sim) (value : JS.num) : Sim :=
  let this := set_throttle (value / 100%Q) this in
  if (throttle (params this) >? 0%Q) && negb (isRunning (state this))
  then set_isRunning true this
  else this.

(** The mass slider's handler, [value] in grams, and the friction slider's. *)
Definition onMassInput (this : Sim) (value : JS.num) : Sim :=
  set_mass (value / 1000%Q) this.

Definition onFrictionInput (this : Sim) (value : JS.num) : Sim :=
  set_frictionCoeff value this.

(** The start/stop button's handler. *)
Definition onStartClick (this : Sim) : Sim :=
  set_isRunning (negb (isRunning (state this))) this.

(** The numbers of the stored battery data; a property that is missing is
    [None]. *)
Record BatteryData : Type := mkBatteryData {
  d_packVoltage : option JS.num;
  d_capacityMah : option JS.num;
  d_internalR : option JS.num;
  d_motorCurrent : option JS.num
}.

(** [if (data.x) this.params.y = data.x]: a value that is missing, 0 or [NaN]
    assigns nothing. *)
Definition assign_if_truthy (v : option JS.num)
    (set : JS.num -> Sim -> Sim) (this : Sim) : Sim :=
  match v with
  | Some n => if JS.truthy n then set n this else this
  | None => this
  end.

(** [loadBatteryData()], called once by [init()] before the first frame;
    [data] is [None] when nothing is stored or parsing fails. *)
Definition loadBatteryData (this : Sim) (data : option BatteryData) : Sim :=
  match data with
  | Some d =>
      let this := assign_if_truthy (d_packVoltage d) set_batteryVoltage this in
      let this := assign_if_truthy (d_capacityMah d) set_batteryCapacity this in
      let this := assign_if_truthy (d_internalR d) set_internalR this in
      assign_if_truthy (d_motorCurrent d) set_batteryCurrent this
  | None => this
  end.

(** [loadBatteryData()] on the browser's storage: the item
    ['chargedup-chemistry-data'], when it is there and not empty, goes
    through [JSON.parse], here [parse], which gives [None] when it throws. *)
Definition loadStoredBatteryData (parse : string -> option BatteryData)
    (store : Storage.t) (this : Sim) : Sim :=
  match Storage.getItem store "chargedup-chemistry-data" with
  | Some text =>
      if String.eqb text "" then this else loadBatteryData this (parse text)
  | None => this
  end.

(** [reset()] *)
Definition reset (this : Sim) : Sim :=
  set_throttle 0%Q
    (mkSim initialState (params this) (track this) (lastTime this)).

(** A sequence of ticks: before each tick the throttle is set to the given
    value, then [updatePhysics] runs with the given [dt].  The result lists
    the simulator after each tick. *)
Fixpoint ticks (this : Sim) (inputs : list (JS.num * JS.num)) : list Sim :=
  match inputs with
  | [] => []
  | (thr, dt) :: rest =>
      let this' := updatePhysics (set_throttle thr this) dt in
      this' :: ticks this' rest
  end.

End RCCar.

(** ** Vocabulary of the properties *)

Module Spec.

Import RCCar.
Local Open Scope js_scope.

(** The simulator after the first statement of [updatePhysics]. *)
Definition throttled (this : Sim) : Sim :=
  if batteryCharge (state this) <=? 0%Q then set_throttle 0%Q this else this.

(** The position lies within the track. *)
Definition on_track (this : Sim) : Prop :=
  (0%Q <=? position (state this)) = true /\
  (position (state this) <? length (track this)) = true.

(** The lap time that ends qualifies as the best one. *)
Definition qualifies (s : State) : bool :=
  (lapTime s >? 0%Q) && (lapTime s <? bestLapTime s).

(** The numbers of the state are rationals; [bestLapTime] may be [Infinity]
    and [acceleration] is overwritten by every tick. *)
Definition finite_state (s : State) : Prop :=
  JS.finite (position s) /\ JS.finite (velocity s) /\
  JS.finite (batteryCharge s) /\ JS.finite (lapTime s) /\
  JS.finite (totalEnergy s).

Definition finite_params (p : Params) : Prop :=
  JS.finite (mass p) /\ JS.finite (wheelRadius p) /\
  JS.finite (motorEfficiency p) /\ JS.finite (frictionCoeff p) /\
  JS.finite (airResistance p) /\ JS.finite (maxTorque p) /\
  JS.finite (batteryVoltage p) /\ JS.finite (batteryCurrent p) /\
  JS.finite (batteryCapacity p) /\ JS.finite (internalR p) /\
  JS.finite (throttle p).

Definition nonzero (a : JS.num) : Prop := ~ a ≡ 0%Q.

Definition positive (a : JS.num) : Prop := (0%Q <? a) = true.

(** A configuration the tick divides by: rational parameters with a mass, a
    wheel radius, a battery voltage and a battery capacity other than 0. *)
Definition configured (p : Params) : Prop :=
  finite_params p /\ nonzero (mass p) /\ nonzero (wheelRadius p) /\
  nonzero (batteryVoltage p) /\ nonzero (batteryCapacity p).

(** The full capacity in Joules that [updateBattery] computes. *)
Definition fullCapacity (p : Params) : JS.num :=
  batteryVoltage p * (batteryCapacity p * 3.6%Q).

(** The charge is the one [updateBattery] derives from the energy used; it
    holds after construction and [reset()], and every tick keeps it. *)
Definition battery_consistent (this : Sim) : Prop :=
  batteryCharge (state this)
  ≡ JS.max 0%Q (100%Q - totalEnergy (state this)
                         / fullCapacity (params this) * 100%Q).

(** From one simulator to a later one the energy used does not decrease and
    the charge does not increase. *)
Definition battery_step (a b : Sim) : Prop :=
  (totalEnergy (state a) <=? totalEnergy (state b)) = true /\
  (batteryCharge (state b) <=? batteryCharge (state a)) = true.

(** The battery parameters are positive rationals, the energy used is a
    rational, and the charge is consistent with it. *)
Definition battery_ready (this : Sim) : Prop :=
  let p := params this in
  JS.finite (batteryVoltage p) /\ positive (batteryVoltage p) /\
  JS.finite (batteryCurrent p) /\ positive (batteryCurrent p) /\
  JS.finite (batteryCapacity p) /\ positive (batteryCapacity p) /\
  JS.finite (totalEnergy (state this)) /\ battery_consistent this.

(** Before the first tick: positive rational battery parameters, no energy
    used and a charge of 100 percent. *)
Definition fresh (this : Sim) : Prop :=
  let p := params this in
  (JS.finite (batteryVoltage p) /\ positive (batteryVoltage p)) /\
  (JS.finite (batteryCurrent p) /\ positive (batteryCurrent p)) /\
  (JS.finite (batteryCapacity p) /\ positive (batteryCapacity p)) /\
  totalEnergy (state this) = JS.Fin 0 /\
  batteryCharge (state this) = JS.Fin 100.

(** A stored number, when present, is a positive rational. *)
Definition positive_if_present (v : option JS.num) : Prop :=
  match v with
  | Some n => JS.finite n /\ positive n
  | None => True
  end.

(** A tick input: a rational throttle, of any sign, and a rational [dt] that
    is not negative. *)
Definition tick_input (input : JS.num * JS.num) : Prop :=
  JS.finite (fst input) /\ JS.finite (snd input) /\
  (0%Q <=? snd input) = true.

End Spec.

(** * Properties *)

(** ** Facts about JavaScript numbers *)

(** Unfolds the JavaScript operations and the record projections and leaves
    the rational arithmetic as it is. *)
Ltac js_red :=
  cbn -[Qplus Qminus Qmult Qdiv Qopp Qinv Qle_bool Qeq_bool Qfloor inject_Z
        Qmax Qmin Qabs Qeq Qle Qlt Z.add] in *.

Section NumFacts.

Lemma Qltb_iff (x y : Q) : JS.Qltb x y = true <-> x < y.
Proof.
  unfold JS.Qltb. rewrite negb_true_iff.
  destruct (Qle_bool y x) eqn:E.
  - apply Qle_bool_iff in E. split; [discriminate | intros H; lra].
  - split; [intros _ | reflexivity].
    destruct (Qlt_le_dec x y) as [H | H]; [exact H |].
    apply Qle_bool_iff in H. congruence.
Qed.

Lemma Qle_bool_false (x y : Q) : Qle_bool x y = false <-> y < x.
Proof.
  rewrite <- Qltb_iff. unfold JS.Qltb.
  destruct (Qle_bool x y); simpl; split; congruence.
Qed.

Lemma Qeq_bool_false (x y : Q) : Qeq_bool x y = false <-> ~ x == y.
Proof.
  split; [apply Qeq_bool_neq |].
  intros H. destruct (Qeq_bool x y) eqn:E; [| reflexivity].
  apply Qeq_bool_iff in E. contradiction.
Qed.

Lemma same_refl (a : JS.num) : a ≡ a.
Proof. destruct a; simpl; auto; reflexivity. Qed.


Lemma same_trans (a b c : JS.num) : a ≡ b -> b ≡ c -> a ≡ c.
Proof.
  destruct a, b, c; simpl; auto; try contradiction.
  intros H1 H2. rewrite H1. exact H2.
Qed.

(** Adding zero on the left changes no number, special values included. *)
Lemma add_zero_l (a : JS.num) : JS.add (JS.Fin 0) a ≡ a.
Proof. destruct a; simpl; auto. ring. Qed.

Lemma le_fin (x y : Q) : JS.le (JS.Fin x) (JS.Fin y) = true <-> x <= y.
Proof. simpl. apply Qle_bool_iff. Qed.

Lemma lt_fin (x y : Q) : JS.lt (JS.Fin x) (JS.Fin y) = true <-> x < y.
Proof. simpl. apply Qltb_iff. Qed.

(** A number strictly between two others is finite. *)
Lemma lt_lt_finite (a b c : JS.num) :
  JS.lt a b = true -> JS.lt b c = true -> JS.finite b.
Proof. destruct a, b, c; simpl; auto; discriminate. Qed.

(** [Math.max(0, x)] of a number that is not [NaN] is at least [0]. *)
Lemma max_zero_nonneg (a : JS.num) :
  a <> JS.NaN -> JS.le (JS.Fin 0) (JS.max (JS.Fin 0) a) = true.
Proof.
  destruct a as [q | | |]; simpl; try congruence; intros _; try reflexivity.
  destruct (Qle_bool 0 q) eqn:E; simpl; [exact E | reflexivity].
Qed.

(** [Math.max(0, x)] is never below [0], not even for [NaN]. *)
Lemma max_zero_not_neg (a : JS.num) :
  JS.lt (JS.max (JS.Fin 0) a) (JS.Fin 0) = false.
Proof.
  destruct a as [q | | |]; simpl; try reflexivity.
  destruct (Qle_bool 0 q) eqn:E; simpl; unfold JS.Qltb.
  - rewrite E. reflexivity.
  - reflexivity.
Qed.

Lemma max_zero_cases (a : JS.num) :
  JS.max (JS.Fin 0) a = JS.NaN \/ JS.le (JS.Fin 0) (JS.max (JS.Fin 0) a) = true.
Proof.
  destruct a as [q | | |]; [right | right | right | left]; try reflexivity.
  apply max_zero_nonneg. discriminate.
Qed.

Lemma le_trans (a b c : JS.num) :
  JS.le a b = true -> JS.le b c = true -> JS.le a c = true.
Proof.
  destruct a, b, c; simpl; try discriminate; try reflexivity.
  rewrite !Qle_bool_iff. apply Qle_trans.
Qed.

(** [Math.max(0, x)] is [NaN] exactly when [x] is. *)
Lemma max_zero_nan (a : JS.num) :
  JS.max (JS.Fin 0) a = JS.NaN <-> a = JS.NaN.
Proof.
  destruct a as [q | | |]; simpl; try (split; congruence).
  destruct (Qle_bool 0 q); split; discriminate.
Qed.



Lemma finite_fin (a : JS.num) : JS.finite a -> exists q, a = JS.Fin q.
Proof.
  destruct a; simpl; try contradiction. intros _. eexists. reflexivity.
Qed.

End NumFacts.

(** Turns the boolean tests on rationals into propositions. *)
Ltac q_props :=
  repeat match goal with
  | H : Qle_bool _ _ = true |- _ => apply Qle_bool_iff in H
  | H : Qle_bool _ _ = false |- _ => apply Qle_bool_false in H
  | H : JS.Qltb _ _ = true |- _ => apply Qltb_iff in H
  | H : Qeq_bool _ _ = true |- _ => apply Qeq_bool_iff in H
  | H : Qeq_bool _ _ = false |- _ => apply Qeq_bool_false in H
  | |- Qle_bool _ _ = true => apply Qle_bool_iff
  | |- Qle_bool _ _ = false => apply Qle_bool_false
  | |- JS.Qltb _ _ = true => apply Qltb_iff
  | |- Qeq_bool _ _ = false => apply Qeq_bool_false
  end.

(** Replaces every variable known to be finite by a rational. *)
Ltac fin_vars :=
  repeat match goal with
  | H : JS.finite ?x |- _ =>
      is_var x; destruct x; [clear H | contradiction H ..]
  end.

(** ** The battery calculator *)

Section CalculatorProperties.

Import Chemistry.

(** The calculator checks of the repository's test report. *)
Example test_single_aa :
  let r := fst (calculateFromCapacity new 2000%Q 1.5%Q
                  (Some (JS.Fin 1)) (Some (JS.Fin 1)) (Some (JS.Fin 1))) in
  chargeC r ≡ 7200%Q /\ energyJ r ≡ 10800%Q /\ energyWh r ≡ 3%Q.
Proof. vm_compute. repeat split; reflexivity. Qed.

(** The power loss [I * I * R] at 1 A and 1.2 ohm is 1.2 W (the report
    lists 1.44 W). *)
Example test_voltage_sag :
  let r := calculateLoadedVoltage 6%Q 1%Q 1.2%Q in
  voltageDrop r ≡ 1.2%Q /\ loadedVoltage r ≡ 4.8%Q /\ powerLossW r ≡ 1.2%Q.
Proof. vm_compute. repeat split; reflexivity. Qed.

Example test_stoichiometry :
  let r := fst (calculateFromMass new 1%Q 2%Q (Some (JS.Fin 1.5)) None) in
  limitingReagent r = MnO2 /\ excessReagent r = Zn /\
  (JS.lt (JS.Fin 0.015295) (molesZn r) && JS.lt (molesZn r) (JS.Fin 0.015305)
   && JS.lt (JS.Fin 0.023005) (molesMnO2 r)
   && JS.lt (molesMnO2 r) (JS.Fin 0.023015)
   && JS.lt (JS.Fin 0.023005) (molesElectrons r)
   && JS.lt (molesElectrons r) (JS.Fin 0.023015)
   && JS.lt (JS.Fin 2219.5) (s_chargeC r)
   && JS.lt (s_chargeC r) (JS.Fin 2220.5)) = true.
Proof. vm_compute. repeat split; reflexivity. Qed.

(** C7.  [calculateFromCapacity], on all numbers and with the defaults of
    omitted counts, and then on rational arguments: the pack voltage is the
    cell voltage times the series count, the pack capacity the cell capacity
    times the parallel count, the pack charge the cell charge
    [capacityMah / 1000 * 3600] times the parallel count, the energy in J the
    pack voltage times the pack charge, and in Wh that divided by 3600.  The
    4xAA pack (2000 mAh, 1.5 V, 4 in series, 1 in parallel) gives 6 V,
    2000 mAh, 43200 J and 12 Wh. *)
Theorem calculateFromCapacity_pack :
  (forall (c : BatteryCalculator) (capacityMah voltage : JS.num)
          (cells series parallel : option JS.num),
     let r := fst (calculateFromCapacity c capacityMah voltage
                     cells series parallel) in
     let perCell := JS.mul (JS.div capacityMah (JS.Fin 1000)) (JS.Fin 3600) in
     packVoltage r = JS.mul voltage (JS.dflt (JS.Fin 1) series) /\
     packCapacityMah r = JS.mul capacityMah (JS.dflt (JS.Fin 1) parallel) /\
     chargeC r = JS.mul perCell (JS.dflt (JS.Fin 1) parallel) /\
     energyJ r = JS.mul (packVoltage r) (chargeC r) /\
     energyWh r = JS.div (energyJ r) (JS.Fin 3600)) /\
  (forall (c : BatteryCalculator) (cap v cells s p : Q),
     let r := fst (calculateFromCapacity c cap v
                     (Some (JS.Fin cells)) (Some (JS.Fin s)) (Some (JS.Fin p))) in
     packVoltage r ≡ (v * s)%Q /\
     packCapacityMah r ≡ (cap * p)%Q /\
     chargeC r ≡ (cap / 1000 * 3600 * p)%Q /\
     energyJ r ≡ (v * s * (cap / 1000 * 3600 * p))%Q /\
     energyWh r ≡ (v * s * (cap / 1000 * 3600 * p) / 3600)%Q) /\
  (let r := fst (calculateFromCapacity new 2000%Q 1.5%Q
                   (Some (JS.Fin 4)) (Some (JS.Fin 4)) (Some (JS.Fin 1))) in
   packVoltage r ≡ 6%Q /\ packCapacityMah r ≡ 2000%Q /\
   energyJ r ≡ 43200%Q /\ energyWh r ≡ 12%Q).
Proof.
  split; [| split].
  - intros c capacityMah voltage cells series parallel r perCell.
    repeat split; reflexivity.
  - intros c cap v cells s p r. subst r. cbn.
    repeat split; reflexivity.
  - cbn. repeat split; vm_compute; reflexivity.
Qed.



(** C10.  [estimateRuntime]: a current that is [<= 0] gives the infinite
    runtime, in hours and in minutes, and any other current gives
    [(capacityMah / 1000) / currentA] hours; on rationals, a positive current
    [c] gives the rational [(cap / 1000) / c]. *)
Theorem estimateRuntime_sentinel :
  (forall capacityMah currentA : JS.num,
     (JS.le currentA (JS.Fin 0) = true ->
      hours (estimateRuntime capacityMah currentA) = JS.PInf /\
      minutes (estimateRuntime capacityMah currentA) = JS.PInf) /\
     (JS.le currentA (JS.Fin 0) = false ->
      hours (estimateRuntime capacityMah currentA)
      = JS.div (JS.div capacityMah (JS.Fin 1000)) currentA)) /\
  (forall cap c : Q,
     (c <= 0 -> hours (estimateRuntime cap c) = JS.PInf) /\
     (0 < c -> hours (estimateRuntime cap c) ≡ (cap / 1000 / c)%Q)).
Proof.
  split.
  - intros cap cur. unfold estimateRuntime.
    split; intros H; rewrite H; cbn; auto.
  - intros cap c. unfold estimateRuntime. split; intros H.
    + apply le_fin in H. rewrite H. reflexivity.
    + assert (E : JS.le (JS.Fin c) (JS.Fin 0) = false).
      { simpl. apply Qle_bool_false. exact H. }
      rewrite E. cbn.
      assert (Ez : Qeq_bool c 0 = false) by (apply Qeq_bool_false; lra).
      rewrite Ez. simpl. reflexivity.
Qed.

(** No draw gives the sentinel; 2000 mAh at 1 A last 2 hours. *)
Lemma estimateRuntime_sentinel_witness :
  hours (estimateRuntime 2000%Q 0%Q) = JS.PInf /\
  hours (estimateRuntime 2000%Q 1%Q) ≡ 2%Q.
Proof.
  split.
  - apply (proj1 (proj2 estimateRuntime_sentinel 2000 0)). lra.
  - apply (same_trans _ _ _
             (proj2 (proj2 estimateRuntime_sentinel 2000 1) ltac:(lra))).
    vm_compute. reflexivity.
Defined.

(** C8, as the claim states it, fails: [calculateFromCapacity] changes the
    calculator, whose [results] property is empty before the call and holds
    the returned object after it; and a call of [calculateFromMass] changes
    what a later [generateWorkSteps] returns. *)
Lemma calculator_state_counterexample :
  let c := new in
  let c1 := snd (calculateFromCapacity c 2000%Q 1.5%Q
                   (Some (JS.Fin 4)) (Some (JS.Fin 4)) (Some (JS.Fin 1))) in
  let c2 := snd (calculateFromMass c 1%Q 2%Q (Some (JS.Fin 1.5)) None) in
  results c = Empty /\ results c1 <> results c /\ c1 <> c /\
  generateWorkSteps c = NoSteps /\ generateWorkSteps c2 <> generateWorkSteps c.
Proof.
  cbv zeta. repeat split; try discriminate.
Qed.

(** C8, amended.  What [calculateFromMass] and [calculateFromCapacity] return
    depends on the arguments and on the table of constants only, not on
    [this.results]; each call stores the object it returns in [this.results]
    and leaves the table of constants as it was.  So no call changes what a
    later call of either function returns. *)
Theorem calculator_results_frame (c c' : BatteryCalculator)
    (zn mno2 cap v : JS.num) (vo eo cells se pa : option JS.num) :
  constants c = constants c' ->
  fst (calculateFromMass c zn mno2 vo eo)
  = fst (calculateFromMass c' zn mno2 vo eo) /\
  fst (calculateFromCapacity c cap v cells se pa)
  = fst (calculateFromCapacity c' cap v cells se pa) /\
  snd (calculateFromMass c zn mno2 vo eo)
  = mkCalc (constants c) (Stoichiometry (fst (calculateFromMass c zn mno2 vo eo))) /\
  snd (calculateFromCapacity c cap v cells se pa)
  = mkCalc (constants c)
      (Commercial (fst (calculateFromCapacity c cap v cells se pa))).
Proof.
  intros H. unfold calculateFromMass, calculateFromCapacity. rewrite <- H.
  repeat split.
  all: destruct (JS.le _ _); reflexivity.
Qed.

(** A calculation from masses after one from a capacity returns what it
    returns on a new calculator. *)
Lemma calculator_results_frame_witness :
  let c := snd (calculateFromCapacity new 2000%Q 1.5%Q None None None) in
  fst (calculateFromMass c 1%Q 2%Q None None)
  = fst (calculateFromMass new 1%Q 2%Q None None).
Proof.
  intros c.
  apply (proj1 (calculator_results_frame c new 1%Q 2%Q 2000%Q 1.5%Q
                  None None None None None eq_refl)).
Defined.

End CalculatorProperties.

(** ** The motor speed estimator *)

Section MotorProperties.

Import Motor.

(** C9, as the claim states it, fails: the returned [rpm] is rounded.  The
    small DC motor at 6 V and 0.0001 A has
    [noLoadRPM * speedRatio * voltageRatio = 5999.7], and [rpm] is 6000. *)
Lemma estimateSpeed_rpm_counterexample :
  let supply := JS.Fin 6 in
  let current := JS.Fin 0.0001 in
  let voltageRatio := JS.min (JS.div supply (JS.Fin 6)) (JS.Fin 1.5) in
  let speedRatio :=
    JS.max (JS.Fin 0)
      (JS.div (JS.sub supply (JS.mul current (JS.Fin 3))) (JS.Fin 6)) in
  let product := JS.mul (JS.mul (JS.Fin 6000) speedRatio) voltageRatio in
  exists n,
    rpm (estimateSpeed (new None) current supply) = Some n /\
    product ≡ 5999.7%Q /\ n ≡ 6000%Q /\ ~ n ≡ product.
Proof.
  cbv zeta. eexists. split; [reflexivity |].
  vm_compute. repeat split; try reflexivity.
  intros H. discriminate H.
Qed.

(** C9, amended.  For a preset whose [noLoadRPM] is a number other than 0
    and [NaN], [estimateSpeed] returns as [rpm] the product
    [noLoadRPM * speedRatio * voltageRatio], as JavaScript computes it,
    rounded by [Math.round], where [voltageRatio] is
    [min(supplyVoltage / ratedVoltage, 1.5)] and [speedRatio] is
    [max(0, (supplyVoltage - current * armatureR) / ratedVoltage)];
    [Math.round] of a finite number is the nearest integer, a tie going up.
    For a preset whose [noLoadRPM] is [null], 0 or [NaN] it returns
    [rpm: null]. *)
Theorem estimateSpeed_rpm_rounded :
  (forall (p : Preset) (noLoad current supply : JS.num),
     noLoadRPM p = Some noLoad -> JS.truthy noLoad = true ->
     let voltageRatio :=
       JS.min (JS.div supply (ratedVoltage p)) (JS.Fin 1.5) in
     let speedRatio :=
       JS.max (JS.Fin 0)
         (JS.div (JS.sub supply (JS.mul current (armatureR p)))
            (ratedVoltage p)) in
     rpm (estimateSpeed (mkEstimator p) current supply)
     = Some (JS.round (JS.mul (JS.mul noLoad speedRatio) voltageRatio))) /\
  (forall product : Q,
     exists n : Z,
       JS.round (JS.Fin product) = JS.Fin (inject_Z n) /\
       inject_Z n <= product + (1 # 2) /\
       product + (1 # 2) < inject_Z n + 1) /\
  (forall (p : Preset) (current supply : JS.num),
     falsy (noLoadRPM p) = true ->
     rpm (estimateSpeed (mkEstimator p) current supply) = None).
Proof.
  split; [| split].
  - intros p noLoad current supply Hn Ht. unfold estimateSpeed.
    simpl preset. rewrite Hn, Ht. reflexivity.
  - intros product. exists (Qfloor (product + (1 # 2))).
    split; [reflexivity |]. split.
    + apply Qfloor_le.
    + pose proof (Qlt_floor (product + (1 # 2))) as H.
      rewrite inject_Z_plus in H. exact H.
  - intros p current supply H. unfold estimateSpeed. simpl preset.
    destruct (noLoadRPM p) as [n |]; [| reflexivity].
    simpl in H. apply negb_true_iff in H. rewrite H. reflexivity.
Qed.

(** The small DC motor at its rated 6 V and 0.5 A turns at 4500 rpm; the demo
    coil has no speed. *)
Lemma estimateSpeed_rpm_rounded_witness :
  (exists n,
     rpm (estimateSpeed (new None) 0.5%Q 6%Q) = Some n /\ n ≡ 4500%Q) /\
  rpm (estimateSpeed (new (Some demo_solenoid)) 0.5%Q 6%Q) = None.
Proof.
  split.
  - eexists. split.
    + apply (proj1 estimateSpeed_rpm_rounded small_dc_motor (JS.Fin 6000)
               (JS.Fin 0.5) (JS.Fin 6) eq_refl eq_refl).
    + vm_compute. reflexivity.
  - apply (proj2 (proj2 estimateSpeed_rpm_rounded) demo_solenoid).
    reflexivity.
Defined.

End MotorProperties.

(** ** The simulator *)

Ltac sim_red :=
  cbn -[JS.add JS.sub JS.mul JS.div JS.max JS.min JS.le JS.lt JS.ge JS.gt
        JS.neg JS.abs RCCar.calculateAcceleration Z.add].

Section SimulatorProperties.

Import RCCar Spec.
Local Open Scope js_scope.

Lemma throttled_state (this : Sim) : state (throttled this) = state this.
Proof. unfold throttled. destruct (_ <=? _); reflexivity. Qed.

Lemma throttled_track (this : Sim) : track (throttled this) = track this.
Proof. unfold throttled. destruct (_ <=? _); reflexivity. Qed.

Lemma throttled_lastTime (this : Sim) :
  lastTime (throttled this) = lastTime this.
Proof. unfold throttled. destruct (_ <=? _); reflexivity. Qed.

(** The first statement changes the throttle at most. *)
Lemma throttled_params (this : Sim) :
  let p := params this in
  params (throttled this)
  = mkParams (mass p) (wheelRadius p) (motorEfficiency p) (frictionCoeff p)
      (airResistance p) (maxTorque p) (batteryVoltage p) (batteryCurrent p)
      (batteryCapacity p) (internalR p) (throttle (params (throttled this))).
Proof.
  unfold throttled. destruct (_ <=? _); [reflexivity |].
  destruct this as [s [] t l]. reflexivity.
Qed.

(** One tick, field by field: what [updatePhysics] leaves in the simulator,
    in terms of the simulator at entry. *)
Lemma updatePhysics_summary (this : Sim) (dt : JS.num) :
  updatePhysics this dt =
  let s0 := throttled this in
  let a := calculateAcceleration s0 in
  let v := JS.max 0%Q (velocity (state this) + a * dt) in
  let advanced := position (state this) + v * dt in
  let wrap := advanced >=? length (track this) in
  let thr := throttle (params s0) in
  let E :=
    if thr >? 0%Q
    then totalEnergy (state this)
         + batteryVoltage (params this) * batteryCurrent (params this)
           * thr * dt
    else totalEnergy (state this) in
  mkSim
    (mkState
       (if wrap then advanced - length (track this) else advanced)
       v a
       (if thr >? 0%Q
        then JS.max 0%Q (100%Q - E / fullCapacity (params this) * 100%Q)
        else batteryCharge (state this))
       (if wrap then lapCount (state this) + 1 else lapCount (state this))%Z
       (if wrap then 0%Q + dt else lapTime (state this) + dt)
       (if wrap
        then if qualifies (state this)
             then lapTime (state this) else bestLapTime (state this)
        else bestLapTime (state this))
       E (isRunning (state this)))
    (params s0) (track this) (lastTime this).
Proof.
  unfold updatePhysics, fullCapacity, qualifies. fold (throttled this).
  assert (Hv : batteryVoltage (params (throttled this))
               = batteryVoltage (params this))
    by (rewrite throttled_params; reflexivity).
  assert (Hi : batteryCurrent (params (throttled this))
               = batteryCurrent (params this))
    by (rewrite throttled_params; reflexivity).
  assert (Hc : batteryCapacity (params (throttled this))
               = batteryCapacity (params this))
    by (rewrite throttled_params; reflexivity).
  rewrite <- (throttled_state this), <- (throttled_track this),
    <- (throttled_lastTime this), <- Hv, <- Hi, <- Hc.
  generalize (throttled this). clear. intros s0.
  destruct s0 as [[pos vel acc ch lc lt best E run]
                    [m r eff mu k tau V I cap R thr] [L] last].
  unfold updateBattery. sim_red.
  match goal with
  | |- context [calculateAcceleration ?s] =>
      generalize (calculateAcceleration s); intros a
  end.
  generalize (JS.max 0%Q (vel + a * dt)); intros v.
  destruct (_ >=? L); sim_red; [destruct (_ && _); sim_red |];
    destruct (_ >? _); reflexivity.
Qed.

(** C1, as the claim states it, fails: with an empty battery the tick stores
    0 in the configured throttle.  The slider is at 100 percent, the battery
    at 0 percent; after one tick of 16 ms [params.throttle] is 0, not 1. *)
Lemma updatePhysics_throttle_counterexample :
  let this := set_batteryCharge 0%Q (onThrottleInput new 100%Q) in
  let this' := updatePhysics this 0.016%Q in
  (batteryCharge (state this) <=? 0%Q) = true /\
  throttle (params this) ≡ 1%Q /\
  throttle (params this') ≡ 0%Q /\
  ~ throttle (params this') ≡ throttle (params this).
Proof.
  vm_compute. repeat split; try reflexivity. intros H. discriminate H.
Qed.

(** C1, amended.  A tick that starts with [batteryCharge <= 0] stores 0 in
    [params.throttle] and changes no other parameter; the tick is the one of
    the simulator with throttle 0: the acceleration is computed with
    throttle 0, and the energy used and the battery charge stay as they
    were. *)
Theorem updatePhysics_dead_battery (this : Sim) (dt : JS.num) :
  (batteryCharge (state this) <=? 0%Q) = true ->
  let this' := updatePhysics this dt in
  let p := params this in
  params this'
  = mkParams (mass p) (wheelRadius p) (motorEfficiency p) (frictionCoeff p)
      (airResistance p) (maxTorque p) (batteryVoltage p) (batteryCurrent p)
      (batteryCapacity p) (internalR p) 0%Q /\
  this' = updatePhysics (set_throttle 0%Q this) dt /\
  acceleration (state this') = calculateAcceleration (set_throttle 0%Q this) /\
  totalEnergy (state this') = totalEnergy (state this) /\
  batteryCharge (state this') = batteryCharge (state this).
Proof.
  intros H this' p. subst this' p.
  assert (Ht : throttled this = set_throttle 0%Q this)
    by (unfold throttled; rewrite H; reflexivity).
  assert (Ht' : throttled (set_throttle 0%Q this) = set_throttle 0%Q this).
  { unfold throttled. destruct this as [s q t l]. simpl in *. rewrite H.
    reflexivity. }
  rewrite !updatePhysics_summary. rewrite Ht, Ht'.
  destruct this as [s q t l]. sim_red.
  repeat split; reflexivity.
Qed.

(** The tick of the counterexample: every parameter but the throttle is the
    default one. *)
Lemma updatePhysics_dead_battery_witness :
  let this := set_batteryCharge 0%Q (onThrottleInput new 100%Q) in
  params (updatePhysics this 0.016%Q) = defaultParams.
Proof.
  intros this.
  apply (proj1 (updatePhysics_dead_battery this 0.016%Q eq_refl)).
Defined.

(** While the battery holds a charge the tick changes no parameter. *)
Lemma updatePhysics_params_live (this : Sim) (dt : JS.num) :
  (batteryCharge (state this) <=? 0%Q) = false ->
  params (updatePhysics this dt) = params this.
Proof.
  intros H. rewrite updatePhysics_summary. cbn [params].
  unfold throttled. rewrite H. reflexivity.
Qed.

(** A frame of a simulator that is not running leaves the state alone. *)
Lemma animate_not_running (this : Sim) (timestamp : JS.num) :
  isRunning (state this) = false ->
  state (animate this timestamp) = state this.
Proof.
  intros H. unfold animate.
  destruct (JS.truthy (lastTime this)); cbn; rewrite H; reflexivity.
Qed.

(** [reset()] twice is [reset()] once. *)
Lemma reset_idempotent (this : Sim) : reset (reset this) = reset this.
Proof. destruct this as [s [] t l]. reflexivity. Qed.

(** C3.  A tick whose updated position reaches [track.length]: the position
    is the updated one less the track length, so the overshoot is kept; the
    lap count grows by 1; the best lap time becomes the lap time that ends
    when that is above 0 and below the best so far, which makes it a finite
    time, and is unchanged otherwise; and the lap time ends as [dt]. *)
Theorem updatePhysics_lap_completion (this : Sim) (dt : JS.num) :
  let this' := updatePhysics this dt in
  let advanced := position (state this) + velocity (state this') * dt in
  (advanced >=? length (track this)) = true ->
  position (state this') = advanced - length (track this) /\
  lapCount (state this') = (lapCount (state this) + 1)%Z /\
  (qualifies (state this) = true ->
   bestLapTime (state this') = lapTime (state this) /\
   JS.finite (lapTime (state this))) /\
  (qualifies (state this) = false ->
   bestLapTime (state this') = bestLapTime (state this)) /\
  lapTime (state this') ≡ dt.
Proof.
  intros this' advanced. subst this' advanced.
  rewrite updatePhysics_summary. cbn [state velocity position lapCount
    lapTime bestLapTime].
  intros H. rewrite H.
  split; [reflexivity |]. split; [reflexivity |].
  split; [| split].
  - intros Hq. rewrite Hq. split; [reflexivity |].
    unfold qualifies in Hq. apply andb_true_iff in Hq. destruct Hq as [H0 H1].
    exact (lt_lt_finite _ _ _ H0 H1).
  - intros Hq. rewrite Hq. reflexivity.
  - apply add_zero_l.
Qed.

(** The lap of the specification: from 19.999 m on the 20 m track the car
    advances 0.002 m (0.02 m/s for 0.1 s, no throttle, friction or drag);
    the position ends at 0.001 m, the lap count at 1, the best lap time at
    the 12.5 s of the lap that ends, and the lap time at 0.1 s. *)
Lemma updatePhysics_lap_completion_witness :
  let this :=
    mkSim
      (mkState 19.999%Q 0.02%Q 0%Q 100%Q 0 12.5%Q JS.PInf 0%Q true)
      (mkParams 0.5%Q 0.02%Q 0.7%Q 0%Q 0%Q 0.1%Q 6%Q 1%Q 2000%Q 1.2%Q 0%Q)
      (mkTrack 20%Q) 0%Q in
  let this' := updatePhysics this 0.1%Q in
  position (state this') ≡ 0.001%Q /\
  lapCount (state this') = 1%Z /\
  bestLapTime (state this') ≡ 12.5%Q /\
  lapTime (state this') ≡ 0.1%Q.
Proof.
  intros this this'.
  destruct (updatePhysics_lap_completion this 0.1%Q eq_refl)
    as (Hp & Hc & Hq & _ & Ht).
  destruct (Hq eq_refl) as [Hb _].
  fold this' in Hp, Hc, Hb, Ht.
  rewrite Hp, Hc, Hb.
  repeat split; try exact Ht; vm_compute; reflexivity.
Defined.

(** An updated position of two laps or more: the default car with a motor
    of 1000 N m at full throttle, at rest at the start.  One tick of 0.1 s
    takes it 700 m along the 20 m track, and the position ends at 680 m. *)
Lemma updatePhysics_position_counterexample :
  let this :=
    mkSim initialState
      (mkParams 0.5%Q 0.02%Q 0.7%Q 0.3%Q 0.05%Q 1000%Q 6%Q 1%Q 2000%Q 1.2%Q
         1%Q)
      (mkTrack 20%Q) 0%Q in
  let dt := JS.Fin 0.1 in
  let this' := updatePhysics this dt in
  (0%Q <=? position (state this)) = true /\
  (position (state this) <? length (track this)) = true /\
  (0%Q <? dt) = true /\ (dt <=? 0.1%Q) = true /\
  position (state this') ≡ 680%Q /\
  (position (state this') <? length (track this)) = false.
Proof.
  vm_compute. repeat split; reflexivity.
Qed.

(** From a position on the track a tick with [dt > 0] ends on the track
    exactly when the position it computes before the lap correction is below
    twice the track length. *)
Lemma updatePhysics_on_track_iff (this : Sim) (dt : JS.num) :
  let this' := updatePhysics this dt in
  let advanced := position (state this) + velocity (state this') * dt in
  on_track this -> (0%Q <? dt) = true ->
  (on_track this' <->
   (advanced <? length (track this) + length (track this)) = true).
Proof.
  intros this' advanced. subst this' advanced. unfold on_track.
  rewrite updatePhysics_summary.
  cbn [state velocity position track].
  destruct (max_zero_cases
              (velocity (state this)
               + calculateAcceleration (throttled this) * dt)) as [Hv | Hv];
    revert Hv;
    generalize (JS.max 0%Q (velocity (state this)
                + calculateAcceleration (throttled this) * dt));
    intros v Hv.
  - subst v. intros _ _.
    destruct (position (state this)), dt, (length (track this)); js_red;
      intuition discriminate.
  - destruct this as [[pos vel acc ch lc lt best E run] p [L] last].
    cbn [state position track length].
    intros [H0 HL] Hdt.
    destruct pos as [x | | |]; try discriminate;
      destruct v as [w | | |]; try discriminate;
      destruct dt as [d | | |]; try discriminate;
      destruct L as [l | | |]; try discriminate.
    all: js_red; unfold JS.scale_inf in *; js_red; q_props;
      try assert (Hwd : (0 <= w * d)%Q) by (apply Qmult_le_0_compat; lra).
    all: repeat match goal with
      | |- context [if ?c then _ else _] =>
          destruct c eqn:?; js_red
      end; q_props.
    all: try (split; [intros [? ?] | intros ?; split]; q_props;
              first [discriminate | reflexivity | lra]).
Qed.

(** C2, amended.  From a position within the track, [0 <= position <
    track.length], a tick with [dt > 0] ends at a position within the track
    if and only if the position it computes before the lap correction,
    [position + velocity * dt] with the velocity of the tick, is below twice
    the track length; so it does whenever the tick advances the car by less
    than one track length, [velocity * dt < track.length]. *)
Theorem updatePhysics_position_in_track (this : Sim) (dt : JS.num) :
  let this' := updatePhysics this dt in
  let advanced := position (state this) + velocity (state this') * dt in
  on_track this -> (0%Q <? dt) = true ->
  (on_track this' <->
   (advanced <? length (track this) + length (track this)) = true) /\
  ((velocity (state this') * dt <? length (track this)) = true ->
   on_track this').
Proof.
  intros this' advanced Hon Hdt.
  pose proof (updatePhysics_on_track_iff this dt Hon Hdt) as Hiff.
  fold this' in Hiff. cbv zeta in Hiff. fold advanced in Hiff.
  split; [exact Hiff |].
  intros Hadv. apply Hiff. clear Hiff. subst advanced.
  destruct Hon as [H0 HL]. revert H0 HL Hdt Hadv.
  generalize (velocity (state this')). intros v.
  destruct (position (state this)) as [x | | |]; try discriminate;
    destruct (length (track this)) as [l | | |]; try discriminate;
    destruct v as [w | | |]; try discriminate;
    destruct dt as [d | | |]; try discriminate;
    js_red; unfold JS.scale_inf; intros;
    repeat match goal with
      | H : context [if ?c then _ else _] |- _ =>
          destruct c eqn:?; js_red; try discriminate
      | |- context [if ?c then _ else _] =>
          destruct c eqn:?; js_red; try discriminate
      end;
    try reflexivity; q_props; lra.
Qed.

(** The default car from rest at full throttle: 0.07 m after 0.1 s. *)
Lemma updatePhysics_position_in_track_witness :
  let this := onThrottleInput new 100%Q in
  on_track (updatePhysics this 0.1%Q).
Proof.
  intros this.
  apply (proj2 (updatePhysics_position_in_track this 0.1%Q
                  (conj eq_refl eq_refl) eq_refl)).
  reflexivity.
Defined.

(** Forcing the throttle to 0 keeps a configuration valid. *)
Lemma throttled_configured (this : Sim) :
  configured (params this) -> configured (params (throttled this)).
Proof.
  unfold throttled. destruct (_ <=? _); [| auto].
  destruct this as [s [m r eff mu k tau V I cap R thr] t l].
  unfold configured, finite_params. sim_red. tauto.
Qed.

(** C4, as the claim states it, fails for a mass of 0.  The new car at rest
    (velocity 0, charge 100 percent) with the mass set to 0 has a net force
    of 0 and the acceleration [0 / 0]; after one tick of 16 ms its velocity
    is [NaN], which is not [>= 0]. *)
Lemma updatePhysics_nonnegative_counterexample :
  let this := set_mass 0%Q new in
  let this' := updatePhysics this 0.016%Q in
  (0%Q <=? velocity (state this)) = true /\
  (0%Q <=? batteryCharge (state this)) = true /\
  (0%Q <? 0.016%Q) = true /\
  acceleration (state this') = JS.NaN /\
  velocity (state this') = JS.NaN /\
  (0%Q <=? velocity (state this')) = false.
Proof.
  vm_compute. repeat split; reflexivity.
Qed.

(** C4, amended.  After one tick, whatever the state, the parameters, [dt]
    and the net force, the velocity is never below 0: it is [>= 0] or it is
    [NaN], and it is [NaN] exactly when [velocity + acceleration * dt], with
    the acceleration of the tick, is [NaN].  A battery charge that is
    [>= 0] at entry is after the tick [>= 0] or [NaN], so never below 0. *)
Theorem updatePhysics_nonnegative (this : Sim) (dt : JS.num) :
  let this' := updatePhysics this dt in
  let advanced :=
    velocity (state this) + acceleration (state this') * dt in
  (velocity (state this') <? 0%Q) = false /\
  (velocity (state this') = JS.NaN \/
   (0%Q <=? velocity (state this')) = true) /\
  (velocity (state this') = JS.NaN <-> advanced = JS.NaN) /\
  ((0%Q <=? batteryCharge (state this)) = true ->
   (batteryCharge (state this') <? 0%Q) = false /\
   (batteryCharge (state this') = JS.NaN \/
    (0%Q <=? batteryCharge (state this')) = true)).
Proof.
  intros this' advanced. subst this' advanced.
  rewrite updatePhysics_summary. cbn [state velocity acceleration
    batteryCharge].
  (* the sum and the new charge stay as they are: only [Math.max] counts *)
  generalize (velocity (state this)
              + calculateAcceleration (throttled this) * dt).
  intros advanced.
  split; [apply max_zero_not_neg |].
  split; [apply max_zero_cases |].
  split; [apply max_zero_nan |].
  intros Hch. destruct (_ >? _).
  - split; [apply max_zero_not_neg | apply max_zero_cases].
  - split; [| right; exact Hch].
    destruct (batteryCharge (state this)) as [c | | |];
      try discriminate Hch; try reflexivity.
    simpl in *. unfold JS.Qltb. rewrite Hch. reflexivity.
Qed.

(** The default car at full throttle with 0.001 percent of charge left and
    the full 43200 J used: the tick of 0.1 s computes a charge below 0, and
    the charge stops at 0. *)
Lemma updatePhysics_nonnegative_witness :
  let this :=
    set_totalEnergy 43200%Q
      (set_batteryCharge 0.001%Q (onThrottleInput new 100%Q)) in
  let this' := updatePhysics this 0.1%Q in
  (batteryCharge (state this') <? 0%Q) = false /\
  (batteryCharge (state this') = JS.NaN \/
   (0%Q <=? batteryCharge (state this')) = true).
Proof.
  intros this this'.
  apply (proj2 (proj2 (proj2 (updatePhysics_nonnegative this 0.1%Q)))).
  reflexivity.
Defined.

(** One tick after setting the throttle: the energy used does not decrease,
    the charge does not increase, and the simulator stays [battery_ready]. *)
Lemma tick_battery_step (this : Sim) (thr dt : JS.num) :
  battery_ready this -> tick_input (thr, dt) ->
  let this' := updatePhysics (set_throttle thr this) dt in
  battery_step this this' /\ battery_ready this'.
Proof.
  intros Hb Hd this'. subst this'. rewrite updatePhysics_summary.
  generalize (calculateAcceleration (throttled (set_throttle thr this))).
  intros a.
  destruct this as [[pos vel acc ch lc lt best E run]
                      [m r eff mu k tau V I cap R thr0] [L] last].
  unfold battery_ready, battery_step, battery_consistent, tick_input, positive,
    fullCapacity, throttled in *.
  cbn [state params totalEnergy batteryCharge batteryVoltage batteryCurrent
         batteryCapacity throttle set_throttle fst snd] in *.
  destruct Hb as (HV & HVp & HI & HIp & Hc & Hcp & HE & Hcons).
  destruct Hd as (Hthr & Hdt & Hdtp).
  fin_vars.
  rename q4 into V, q3 into I, q2 into cap, q1 into E, q0 into t, q into d.
  js_red. q_props.
  assert (HF : (0 < V * (cap * 3.6))%Q).
  { apply Qmult_lt_0_compat; [exact HVp |].
    apply Qmult_lt_0_compat; [exact Hcp | reflexivity]. }
  assert (HF0 : Qeq_bool (V * (cap * 3.6))%Q 0 = false)
    by (apply Qeq_bool_false; lra).
  rewrite HF0 in *. js_red.
  destruct ch as [c | | |];
    try (destruct (Qle_bool 0 _) in Hcons; contradiction Hcons).
  js_red.
  destruct (Qle_bool c 0) eqn:Hdead; js_red.
  - (* the battery is empty: nothing is used *)
    change (JS.Qltb 0 0) with false. js_red. rewrite HF0. js_red.
    repeat split; auto; q_props; lra.
  - destruct (JS.Qltb 0 t) eqn:Ht; js_red; rewrite HF0; js_red;
      [| (* no throttle: nothing is used *)
         repeat split; auto; q_props; lra].
    (* the motor draws power *)
    apply Qltb_iff in Ht.
    assert (Hused : (0 <= V * I * t * d)%Q).
    { repeat apply Qmult_le_0_compat; lra. }
    set (F := (V * (cap * 3.6))%Q) in *.
    set (used := (V * I * t * d)%Q) in *.
    assert (Hdiv : (E / F <= (E + used) / F)%Q).
    { unfold Qdiv. apply Qmult_le_compat_r; [lra |].
      apply Qlt_le_weak, Qinv_lt_0_compat. exact HF. }
    repeat split; auto; try (q_props; lra).
    + destruct (Qle_bool 0 (100 + - ((E + used) / F * 100))%Q) eqn:H1;
        destruct (Qle_bool 0 (100 + - (E / F * 100))%Q) eqn:H2;
        js_red; q_props; lra.
    + apply same_refl.
Qed.

(** The constructed simulator is [battery_ready]. *)
Lemma new_battery_ready : battery_ready new.
Proof.
  unfold battery_ready, battery_consistent, positive. simpl.
  repeat split; reflexivity.
Qed.

(** A [fresh] simulator is [battery_ready]. *)
Lemma fresh_battery_ready (this : Sim) : fresh this -> battery_ready this.
Proof.
  destruct this as [[pos vel acc ch lc lt best E run]
                      [m r eff mu k tau V I cap R thr] [L] last].
  unfold fresh, battery_ready, battery_consistent, positive, fullCapacity.
  sim_red. intros ((HV & HVp) & (HI & HIp) & (Hc & Hcp) & HE & Hch).
  subst E ch. fin_vars. js_red.
  rename q1 into V, q into cap.
  assert (HVq : (0 < V)%Q) by (q_props; exact HVp).
  assert (Hcq : (0 < cap)%Q) by (q_props; exact Hcp).
  assert (HF : (0 < V * (cap * 3.6))%Q).
  { q_props. apply Qmult_lt_0_compat; [exact HVp |].
    apply Qmult_lt_0_compat; [exact Hcp | reflexivity]. }
  assert (HF0 : Qeq_bool (V * (cap * 3.6))%Q 0 = false)
    by (apply Qeq_bool_false; lra).
  rewrite HF0. js_red.
  repeat split; auto.
  assert (Hz : (100 + - (0 / (V * (cap * 3.6)) * 100) == 100)%Q)
    by (field; lra).
  destruct (Qle_bool 0 _) eqn:H; js_red; q_props.
  - symmetry. exact Hz.
  - rewrite Hz in H. discriminate H.
Qed.

Lemma new_fresh : fresh new.
Proof. unfold fresh, positive. simpl. repeat split; reflexivity. Qed.

(** Storing a positive number, or nothing, in a battery parameter keeps a
    simulator [fresh]. *)
Lemma assign_fresh (v : option JS.num) (set : JS.num -> Sim -> Sim)
    (this : Sim) :
  set = set_batteryVoltage \/ set = set_batteryCapacity \/
  set = set_internalR \/ set = set_batteryCurrent ->
  positive_if_present v -> fresh this ->
  fresh (assign_if_truthy v set this).
Proof.
  intros Hset Hv Hf. unfold assign_if_truthy.
  destruct v as [n |]; [| exact Hf].
  destruct (JS.truthy n); [| exact Hf].
  destruct this as [s [m r eff mu k tau V I cap R thr] t l].
  unfold fresh, positive_if_present in *.
  destruct Hset as [-> | [-> | [-> | ->]]]; simpl in *; tauto.
Qed.

(** Loading stored battery data whose voltage, capacity and current are
    positive, where present, into the constructed simulator leaves it
    [battery_ready]; the internal resistance plays no part. *)
Lemma loadBatteryData_battery_ready (data : option BatteryData) :
  match data with
  | Some d =>
      positive_if_present (d_packVoltage d) /\
      positive_if_present (d_capacityMah d) /\
      positive_if_present (d_motorCurrent d)
  | None => True
  end ->
  battery_ready (loadBatteryData new data).
Proof.
  intros H. apply fresh_battery_ready.
  destruct data as [[v c r i] |]; [| exact new_fresh].
  cbn [d_packVoltage d_capacityMah d_motorCurrent] in H.
  destruct H as (Hv & Hc & Hi).
  unfold loadBatteryData.
  cbn [d_packVoltage d_capacityMah d_internalR d_motorCurrent].
  apply assign_fresh; [tauto | exact Hi |].
  assert (Hr : fresh (assign_if_truthy c set_batteryCapacity
                        (assign_if_truthy v set_batteryVoltage new))).
  { apply assign_fresh; [tauto | exact Hc |].
    apply assign_fresh; [tauto | exact Hv | exact new_fresh]. }
  revert Hr. generalize (assign_if_truthy c set_batteryCapacity
                           (assign_if_truthy v set_batteryVoltage new)).
  intros this Hf. unfold assign_if_truthy.
  destruct r as [n |]; [| exact Hf].
  destruct (JS.truthy n); [| exact Hf].
  destruct this as [s [m r' eff mu k tau V I cap R thr] t l].
  unfold fresh in *. simpl in *. exact Hf.
Qed.

(** [reset()] keeps the battery parameters and restores a consistent state. *)
Lemma reset_battery_ready (this : Sim) :
  battery_ready this -> battery_ready (reset this).
Proof.
  destruct this as [s [m r eff mu k tau V I cap R thr] t l].
  unfold battery_ready, battery_consistent, positive, fullCapacity.
  sim_red. intros (HV & HVp & HI & HIp & Hc & Hcp & _ & _).
  fin_vars. js_red. q_props.
  assert (HF : (0 < q1 * (q * 3.6))%Q).
  { apply Qmult_lt_0_compat; [exact HVp |].
    apply Qmult_lt_0_compat; [exact Hcp | reflexivity]. }
  assert (HF0 : Qeq_bool (q1 * (q * 3.6))%Q 0 = false)
    by (apply Qeq_bool_false; lra).
  rewrite HF0. js_red.
  repeat split; auto; try (q_props; assumption).
  assert (Hz : (100 + - (0 / (q1 * (q * 3.6)) * 100) == 100)%Q)
    by (field; lra).
  destruct (Qle_bool 0 _) eqn:H; js_red; q_props.
  - symmetry. exact Hz.
  - rewrite Hz in H. discriminate H.
Qed.

#[local] Instance battery_step_trans : Transitive battery_step.
Proof.
  intros a b c [H1 H2] [H3 H4]. split.
  - exact (le_trans _ _ _ H1 H3).
  - exact (le_trans _ _ _ H4 H2).
Qed.

(** Each tick of a sequence is a [battery_step] from the one before. *)
Lemma ticks_sorted (inputs : list (JS.num * JS.num)) :
  forall this : Sim,
    battery_ready this -> Forall tick_input inputs ->
    Sorted battery_step (this :: ticks this inputs).
Proof.
  induction inputs as [| [thr dt] rest IH]; intros this Hb Hd.
  - repeat constructor.
  - inversion Hd as [| ? ? Hd1 Hd2]; subst.
    destruct (tick_battery_step this thr dt Hb Hd1) as [Hstep Hb'].
    simpl. constructor.
    + apply IH; assumption.
    + constructor. exact Hstep.
Qed.

(** C5.  Along any sequence of ticks with a rational throttle and a rational
    [dt] that is not negative, so for every throttle above 0 and [dt] above
    0, run with positive battery voltage, current and capacity from a
    simulator whose charge is consistent with the energy used (as after
    construction, [reset()] and every tick), the energy used never decreases
    and the battery charge never increases: each simulator of the sequence
    has at most the energy and at least the charge of every later one. *)
Theorem ticks_battery_monotone (this : Sim)
    (inputs : list (JS.num * JS.num)) :
  battery_ready this -> Forall tick_input inputs ->
  StronglySorted battery_step (this :: ticks this inputs).
Proof.
  intros Hb Hd. apply Sorted_StronglySorted.
  - exact battery_step_trans.
  - apply ticks_sorted; assumption.
Qed.

(** Three ticks of the new simulator, at full, half and full throttle. *)
Lemma ticks_battery_monotone_witness :
  StronglySorted battery_step
    (new :: ticks new [(JS.Fin 1, JS.Fin 0.1); (JS.Fin 0.5, JS.Fin 0.016);
                       (JS.Fin 1, JS.Fin 0.1)]).
Proof.
  apply ticks_battery_monotone.
  - unfold battery_ready, battery_consistent, positive. simpl.
    repeat split; reflexivity.
  - unfold tick_input. repeat constructor.
Defined.

End SimulatorProperties.

(** * Further properties *)

(** Evaluates the inverses of rational constants, so that [lra] sees
    divisions by constants as products. *)
Ltac qinv_consts :=
  unfold Qdiv in *;
  repeat match goal with
  | |- context [Qinv (Qmake ?n ?d)] =>
      let v := eval vm_compute in (Qinv (Qmake n d)) in
      change (Qinv (Qmake n d)) with v
  | H : context [Qinv (Qmake ?n ?d)] |- _ =>
      let v := eval vm_compute in (Qinv (Qmake n d)) in
      change (Qinv (Qmake n d)) with v in H
  end.

Ltac q_lra := qinv_consts; lra.

(** ** The battery calculator, continued *)

Section CalculatorExtras.

Import Chemistry.

(** X1.  For all numbers: the voltage drop is reported as the product
    [current * internalR], unclamped, while the loaded voltage is never
    below 0: it is the difference [packVoltage - voltageDrop] when the drop
    is [<=] the pack voltage, and 0 when the drop is above it; and with a
    finite pack voltage and a drop that are not negative it never exceeds
    the pack voltage. *)
Theorem calculateLoadedVoltage_clamped (packVoltage current internalR : JS.num) :
  let r := calculateLoadedVoltage packVoltage current internalR in
  voltageDrop r = JS.mul current internalR /\
  JS.lt (loadedVoltage r) (JS.Fin 0) = false /\
  (JS.le (voltageDrop r) packVoltage = true ->
   loadedVoltage r ≡ JS.sub packVoltage (voltageDrop r)) /\
  (JS.lt packVoltage (voltageDrop r) = true ->
   loadedVoltage r ≡ 0%Q) /\
  (JS.finite packVoltage -> JS.le (JS.Fin 0) packVoltage = true ->
   JS.le (JS.Fin 0) (voltageDrop r) = true ->
   JS.le (loadedVoltage r) packVoltage = true).
Proof.
  intros r. subst r. unfold calculateLoadedVoltage.
  cbn [voltageDrop loadedVoltage].
  (* the product stays as it is *)
  generalize (JS.mul current internalR). intros drop.
  split; [reflexivity |]. split; [apply max_zero_not_neg |].
  destruct packVoltage as [v | | |], drop as [d | | |]; js_red;
    repeat split; try discriminate; try contradiction; try reflexivity;
    intros.
  all: repeat match goal with
    | |- context [Qle_bool ?a ?b] => destruct (Qle_bool a b) eqn:?; js_red
    end; q_props; try reflexivity; try lra; try discriminate.
Qed.

(** Ten amperes through 1.2 ohm: a drop of 12 V collapses the 6 V pack. *)
Lemma calculateLoadedVoltage_clamped_witness :
  let r := calculateLoadedVoltage 6%Q 10%Q 1.2%Q in
  voltageDrop r ≡ 12%Q /\ loadedVoltage r ≡ 0%Q.
Proof.
  intros r. subst r. split.
  - rewrite (proj1 (calculateLoadedVoltage_clamped 6%Q 10%Q 1.2%Q)).
    vm_compute. reflexivity.
  - apply (proj1 (proj2 (proj2 (proj2
      (calculateLoadedVoltage_clamped 6%Q 10%Q 1.2%Q))))).
    reflexivity.
Defined.

(** X4.  The moles of reaction are the smaller of [molesZn] and
    [molesMnO2 / 2], so the charge is set by the limiting reagent alone:
    when Zn is limiting, any more MnO2 leaves Zn limiting and the charge as
    it is, and when MnO2 is limiting, any more Zn leaves MnO2 limiting and
    the charge as it is. *)
Theorem calculateFromMass_limited_charge
    (res : Results) (zn mno2 extra : Q) (voltage electrons : option JS.num) :
  let calc (m1 m2 : JS.num) :=
    fst (calculateFromMass (mkCalc CHEMISTRY_CONSTANTS res)
           m1 m2 voltage electrons) in
  0 <= extra ->
  molesReaction (calc zn mno2)
  ≡ JS.min (molesZn (calc zn mno2))
      (JS.div (molesMnO2 (calc zn mno2)) (JS.Fin 2)) /\
  (limitingReagent (calc zn mno2) = Zn ->
   limitingReagent (calc zn (JS.add mno2 extra)) = Zn /\
   s_chargeC (calc zn (JS.add mno2 extra)) = s_chargeC (calc zn mno2)) /\
  (limitingReagent (calc zn mno2) = MnO2 ->
   limitingReagent (calc (JS.add zn extra) mno2) = MnO2 /\
   s_chargeC (calc (JS.add zn extra) mno2) = s_chargeC (calc zn mno2)).
Proof.
  intros calc Hx. subst calc. unfold calculateFromMass.
  cbn [constants M_ZN M_MNO2 FARADAY CHEMISTRY_CONSTANTS JS.add JS.div
       JS.le].
  change (Qeq_bool 65.38 0) with false.
  change (Qeq_bool 86.936 0) with false.
  change (Qeq_bool 2 0) with false. cbv iota.
  cbn [JS.div JS.le]. change (Qeq_bool 2 0) with false. cbv iota.
  destruct (Qle_bool (zn / 65.38) (mno2 / 86.936 / 2)) eqn:E;
    cbn [fst limitingReagent molesReaction molesZn molesMnO2 s_chargeC
         JS.min JS.le JS.div];
    change (Qeq_bool 2 0) with false; cbv iota; rewrite ?E;
    (split; [apply same_refl |]); split; intros Hl; try discriminate Hl.
  - (* Zn is limiting: more MnO2 keeps it so *)
    assert (E' : Qle_bool (zn / 65.38) ((mno2 + extra) / 86.936 / 2) = true)
      by (q_props; q_lra).
    rewrite E'. cbn [fst limitingReagent s_chargeC]. split; reflexivity.
  - (* MnO2 is limiting: more Zn keeps it so *)
    assert (E' : Qle_bool ((zn + extra) / 65.38) (mno2 / 86.936 / 2) = false)
      by (q_props; q_lra).
    rewrite E'. cbn [fst limitingReagent s_chargeC]. split; reflexivity.
Qed.

(** With 1 g of zinc and 2 g of manganese dioxide the dioxide limits the
    charge: three more grams of zinc change nothing. *)
Lemma calculateFromMass_limited_charge_witness :
  let calc (m1 m2 : JS.num) :=
    fst (calculateFromMass new m1 m2 (Some (JS.Fin 1.5)) (Some (JS.Fin 2))) in
  limitingReagent (calc (JS.add 1%Q 3%Q) 2%Q) = MnO2 /\
  s_chargeC (calc (JS.add 1%Q 3%Q) 2%Q) = s_chargeC (calc 1%Q 2%Q).
Proof.
  intros calc.
  apply (proj2 (proj2 (calculateFromMass_limited_charge Empty 1 2 3
                         (Some (JS.Fin 1.5)) (Some (JS.Fin 2))
                         ltac:(discriminate)))).
  reflexivity.
Defined.

(** X6.  For a positive current the runtime falls as the current grows and
    grows with the capacity: with a capacity that is not negative a larger
    current never gives more hours or minutes, and a larger capacity never
    gives fewer. *)
Theorem estimateRuntime_monotone (cap cap' c c' : Q) :
  0 < c -> c <= c' -> 0 <= cap -> cap <= cap' ->
  JS.le (hours (estimateRuntime cap c')) (hours (estimateRuntime cap c))
  = true /\
  JS.le (minutes (estimateRuntime cap c')) (minutes (estimateRuntime cap c))
  = true /\
  JS.le (hours (estimateRuntime cap c)) (hours (estimateRuntime cap' c))
  = true /\
  JS.le (minutes (estimateRuntime cap c)) (minutes (estimateRuntime cap' c))
  = true.
Proof.
  intros Hc Hcc H0 Hcap.
  assert (Hc' : 0 < c') by lra.
  unfold estimateRuntime. js_red.
  assert (E : Qle_bool c 0 = false) by (q_props; lra).
  assert (E' : Qle_bool c' 0 = false) by (q_props; lra).
  assert (Ez : Qeq_bool c 0 = false) by (q_props; lra).
  assert (Ez' : Qeq_bool c' 0 = false) by (q_props; lra).
  rewrite E, E'. change (Qeq_bool 1000 0) with false. js_red.
  rewrite Ez, Ez'. js_red.
  assert (Hah : 0 <= cap / 1000) by q_lra.
  assert (Hah' : cap / 1000 <= cap' / 1000) by q_lra.
  assert (H1 : cap / 1000 / c' <= cap / 1000 / c).
  { apply Qle_shift_div_r; [exact Hc' |].
    assert (Eq : cap / 1000 / c * c' == cap / 1000 * (c' / c))
      by (field; lra).
    rewrite Eq.
    assert (Hr : 1 <= c' / c)
      by (apply Qle_shift_div_l; [exact Hc | lra]).
    nra. }
  assert (H2 : cap / 1000 / c <= cap' / 1000 / c).
  { unfold Qdiv at 1 3. apply Qmult_le_compat_r; [exact Hah' |].
    apply Qlt_le_weak, Qinv_lt_0_compat. exact Hc. }
  repeat split; q_props; lra.
Qed.

(** 2000 mAh at 1 A and at 2 A. *)
Lemma estimateRuntime_monotone_witness :
  JS.le (hours (estimateRuntime 2000%Q 2%Q))
        (hours (estimateRuntime 2000%Q 1%Q)) = true.
Proof.
  apply (proj1 (estimateRuntime_monotone 2000 2000 1 2
                  ltac:(reflexivity) ltac:(discriminate)
                  ltac:(discriminate) ltac:(discriminate))).
Defined.

End CalculatorExtras.

(** ** The battery calculator page *)

Section BatteryPageExtras.

Import Chemistry BatteryUI.


Lemma or_else_falsy (a d : JS.num) :
  JS.truthy a = false -> JS.or_else a d = d.
Proof. unfold JS.or_else. intros H. rewrite H. reflexivity. Qed.

(** X7.  [calculate()] estimates a runtime and a loaded voltage exactly when
    the motor current it uses is above 0, and then the runtime is never the
    infinite sentinel: it is the object with the capacity and the current,
    and its hours are the capacity in Ah over that current. *)
Theorem calculate_runtime (calculator : BatteryCalculator) (i : Inputs) :
  let l := fst (calculate calculator i) in
  match runtime l with
  | Some rt =>
      JS.gt (motorCurrent l) (JS.Fin 0) = true /\
      r_currentA rt = Some (motorCurrent l) /\
      r_capacityMah rt = Some (resultCapacity (l_results l)) /\
      hours rt = JS.div (JS.div (resultCapacity (l_results l)) (JS.Fin 1000))
                   (motorCurrent l) /\
      loadedResults l
      = Some (calculateLoadedVoltage (l_packVoltage l) (motorCurrent l)
                (packInternalR l))
  | None =>
      JS.gt (motorCurrent l) (JS.Fin 0) = false /\ loadedResults l = None
  end.
Proof.
  unfold calculate.
  destruct (stoichiometry_mode i);
    [destruct (calculateFromMass _ _ _ _ _) as [r c]
    | destruct (calculateFromCapacity _ _ _ _ _ _) as [r c]];
    cbn [fst runtime loadedResults motorCurrent l_results l_packVoltage
         packInternalR];
    destruct (JS.gt (JS.or_else (inputMotorCurrent i) (JS.Fin 0)) (JS.Fin 0))
      eqn:E; try (split; reflexivity).
  all: unfold estimateRuntime.
  all: assert (E' : JS.le (JS.or_else (inputMotorCurrent i) (JS.Fin 0))
                      (JS.Fin 0) = false)
         by (destruct (JS.or_else (inputMotorCurrent i) (JS.Fin 0));
             simpl in *; try discriminate; try reflexivity;
             unfold JS.Qltb in E; apply negb_true_iff in E; exact E).
  all: rewrite E'; cbn [hours r_currentA r_capacityMah];
    repeat split; reflexivity.
Qed.

(** X8.  A voltage input that is empty, unreadable or 0 computes exactly as
    1.5 V, and a series count that is empty, unreadable or 0 exactly as 1:
    [calculate()] returns the same results and leaves the same calculator
    as with 1.5, respectively 1, entered. *)
Theorem calculate_voltage_fallback (calculator : BatteryCalculator)
    (i : Inputs) :
  let with_voltage v :=
    mkInputs (inputMode i) v (inputSeries i) (inputParallel i)
      (inputInternalR i) (inputMotorCurrent i) (inputZnMass i)
      (inputMno2Mass i) (inputCapacity i) in
  let with_series s :=
    mkInputs (inputMode i) (inputVoltage i) s (inputParallel i)
      (inputInternalR i) (inputMotorCurrent i) (inputZnMass i)
      (inputMno2Mass i) (inputCapacity i) in
  (JS.truthy (inputVoltage i) = false ->
   calculate calculator i = calculate calculator (with_voltage (JS.Fin 1.5))) /\
  (JS.truthy (inputSeries i) = false ->
   calculate calculator i = calculate calculator (with_series (JS.Fin 1))).
Proof.
  intros with_voltage with_series. split.
  - intros H. unfold calculate, with_voltage, stoichiometry_mode.
    cbn [inputMode inputVoltage inputSeries inputParallel inputInternalR
         inputMotorCurrent inputZnMass inputMno2Mass inputCapacity].
    rewrite (or_else_falsy _ _ H). reflexivity.
  - intros H. unfold calculate, with_series, stoichiometry_mode.
    cbn [inputMode inputVoltage inputSeries inputParallel inputInternalR
         inputMotorCurrent inputZnMass inputMno2Mass inputCapacity].
    rewrite (or_else_falsy _ _ H). reflexivity.
Qed.

(** The single AA cell with the voltage field cleared. *)
Lemma calculate_voltage_fallback_witness :
  let i v :=
    mkInputs (Some "commercial"%string) v (JS.Fin 1) (JS.Fin 1) (JS.Fin 0.3)
      (JS.Fin 0) JS.NaN JS.NaN (JS.Fin 2000) in
  calculate new (i JS.NaN) = calculate new (i (JS.Fin 1.5)).
Proof.
  intros i.
  apply (proj1 (calculate_voltage_fallback new (i JS.NaN))). reflexivity.
Defined.

End BatteryPageExtras.

(** ** The motor speed estimator, continued *)

Section MotorExtras.

Import Motor.

(** X9.  [computeLoadedCurrent] never divides by 0, for all numbers: when
    the total resistance [motorR + internalR] is [<= 0] it returns the
    current 0 with the note of an invalid resistance and no other property;
    otherwise the total resistance it divides by is not 0 and not below 0,
    the current is the quotient [supplyVoltage / totalR], and the object
    carries the total resistance and the steady-state note. *)
Theorem computeLoadedCurrent_guard (supplyVoltage motorR : JS.num)
    (internalR : option JS.num) :
  let r := computeLoadedCurrent supplyVoltage motorR internalR in
  let total := JS.add motorR (JS.dflt (JS.Fin 0) internalR) in
  (JS.le total (JS.Fin 0) = true ->
   lc_current r = JS.Fin 0 /\ lc_note r = InvalidResistance /\
   totalR r = None /\ powerMotor r = None /\ powerLoss r = None) /\
  (JS.le total (JS.Fin 0) = false ->
   ~ total ≡ 0%Q /\ JS.lt total (JS.Fin 0) = false /\
   lc_current r = JS.div supplyVoltage total /\
   totalR r = Some total /\ lc_note r = SteadyState).
Proof.
  intros r total. subst r total. unfold computeLoadedCurrent.
  (* the sum stays as it is: only its comparison with 0 is looked at *)
  generalize (JS.add motorR (JS.dflt (JS.Fin 0) internalR)). intros total.
  destruct (JS.le total (JS.Fin 0)) eqn:E;
    cbn [lc_current lc_note totalR powerMotor powerLoss];
    split; intros H; try discriminate H.
  - repeat split; reflexivity.
  - repeat split; try reflexivity.
    + destruct total as [t | | |]; simpl in *; try tauto.
      q_props. lra.
    + destruct total as [t | | |]; simpl in *; try reflexivity;
        try discriminate E.
      unfold JS.Qltb. destruct (Qle_bool 0 t) eqn:E0; [reflexivity |].
      q_props. lra.
Qed.

(** The RC motor on the 4xAA pack, and a short circuit. *)
Lemma computeLoadedCurrent_guard_witness :
  lc_note (computeLoadedCurrent 6%Q 3%Q (Some (JS.Fin 1.2))) = SteadyState /\
  lc_note (computeLoadedCurrent 6%Q 0%Q (Some (JS.Fin 0)))
  = InvalidResistance.
Proof.
  split.
  - apply (proj2 (computeLoadedCurrent_guard 6%Q 3%Q (Some (JS.Fin 1.2)))).
    reflexivity.
  - apply (proj1 (computeLoadedCurrent_guard 6%Q 0%Q (Some (JS.Fin 0)))).
    reflexivity.
Defined.

(** Rounding a rational between 0 and an integer stays between them. *)
Lemma round_between (x : Q) (z : Z) :
  0 <= x -> x <= inject_Z z ->
  0 <= inject_Z (Qfloor (x + (1 # 2))) /\
  inject_Z (Qfloor (x + (1 # 2))) <= inject_Z z.
Proof.
  intros H0 Hz. split.
  - change 0 with (inject_Z 0). rewrite <- Zle_Qle.
    rewrite <- (Qfloor_Z 0). apply Qfloor_resp_le.
    change (inject_Z 0) with 0. lra.
  - rewrite <- Zle_Qle.
    pose proof (Qfloor_le (x + (1 # 2))) as Hf.
    destruct (Z_le_gt_dec (Qfloor (x + (1 # 2))) z) as [Hle | Hgt];
      [exact Hle | exfalso].
    assert (Hq : inject_Z (z + 1) <= inject_Z (Qfloor (x + (1 # 2))))
      by (rewrite <- Zle_Qle; lia).
    rewrite inject_Z_plus in Hq. change (inject_Z 1) with 1 in Hq. lra.
Qed.

(** Rounding 0 gives 0. *)
Lemma round_zero (x : Q) :
  x == 0 -> inject_Z (Qfloor (x + (1 # 2))) == 0.
Proof.
  intros H. rewrite H. reflexivity.
Qed.

(** On rationals, with a no-load speed and a rated voltage other than 0, the
    [rpm] of [estimateSpeed] is the rounded product. *)
Lemma estimateSpeed_rational (p : Preset)
    (noLoad rated armR current supply : Q) :
  noLoadRPM p = Some (JS.Fin noLoad) ->
  ratedVoltage p = JS.Fin rated ->
  armatureR p = JS.Fin armR ->
  ~ noLoad == 0 -> ~ rated == 0 ->
  rpm (estimateSpeed (mkEstimator p) current supply)
  = Some (JS.Fin (inject_Z (Qfloor
      (noLoad
       * (if Qle_bool 0 ((supply + - (current * armR)) / rated)
          then (supply + - (current * armR)) / rated else 0)
       * (if Qle_bool (supply / rated) 1.5 then supply / rated else 1.5)
       + (1 # 2))))).
Proof.
  intros Hn Hr Ha Hn0 Hr0.
  unfold estimateSpeed. js_red. rewrite Hn, Hr, Ha. js_red.
  apply Qeq_bool_false in Hn0, Hr0. rewrite Hn0, Hr0. js_red.
  destruct (Qle_bool 0 _); destruct (Qle_bool (supply / rated) _);
    reflexivity.
Qed.

(** X11.  At the stall current and beyond, [current * armatureR >=
    supplyVoltage], the estimated speed is 0 rpm, for any preset with a
    no-load speed other than 0 and a rated voltage above 0. *)
Theorem estimateSpeed_stall (p : Preset)
    (noLoad rated armR current supply : Q) :
  noLoadRPM p = Some (JS.Fin noLoad) ->
  ratedVoltage p = JS.Fin rated ->
  armatureR p = JS.Fin armR ->
  ~ noLoad == 0 -> 0 < rated ->
  supply <= current * armR ->
  exists n : JS.num,
    rpm (estimateSpeed (mkEstimator p) current supply) = Some n /\
    n ≡ 0%Q.
Proof.
  intros Hn Hr Ha Hn0 Hr0 Hstall.
  rewrite (estimateSpeed_rational p noLoad rated armR current supply)
    by (assumption || lra).
  eexists. split; [reflexivity |].
  assert (Hsr : (supply + - (current * armR)) / rated <= 0).
  { apply Qle_shift_div_r; [exact Hr0 | lra]. }
  apply round_zero.
  destruct (Qle_bool 0 ((supply + - (current * armR)) / rated)) eqn:E;
    q_props.
  - assert (Hz : (supply + - (current * armR)) / rated == 0) by lra.
    rewrite Hz. ring.
  - ring.
Qed.

(** The small DC motor (armature 3 ohm) at 6 V drawing its stall current
    of 2 A. *)
Lemma estimateSpeed_stall_witness :
  exists n : JS.num,
    rpm (estimateSpeed (mkEstimator small_dc_motor) 2%Q 6%Q) = Some n /\
    n ≡ 0%Q.
Proof.
  apply (estimateSpeed_stall small_dc_motor 6000 6 3 2 6);
    try reflexivity; vm_compute; discriminate.
Defined.

(** The product that [estimateSpeed] rounds, for a supply from 0 up to the
    rated voltage and a current and an armature resistance not below 0, is
    between 0 and the no-load speed. *)
Lemma speed_product_bounds (noLoad rated armR current supply : Q) :
  0 <= noLoad -> 0 < rated -> 0 <= armR -> 0 <= current ->
  0 <= supply -> supply <= rated ->
  let p :=
    noLoad
    * (if Qle_bool 0 ((supply + - (current * armR)) / rated)
       then (supply + - (current * armR)) / rated else 0)
    * (if Qle_bool (supply / rated) 1.5 then supply / rated else 1.5) in
  0 <= p /\ p <= noLoad.
Proof.
  intros Hn Hr Ha Hc Hs0 Hs1 p. subst p.
  assert (Hv0 : 0 <= supply / rated)
    by (apply Qle_shift_div_l; [exact Hr | lra]).
  assert (Hv1 : supply / rated <= 1)
    by (apply Qle_shift_div_r; [exact Hr | lra]).
  assert (Hsv : (supply + - (current * armR)) / rated <= supply / rated).
  { apply Qle_shift_div_r; [exact Hr |].
    assert (E : supply / rated * rated == supply) by (field; lra).
    rewrite E. nra. }
  generalize dependent ((supply + - (current * armR)) / rated).
  generalize dependent (supply / rated).
  intros v Hv0 Hv1 s Hsv.
  set (a := if Qle_bool 0 s then s else 0).
  set (b := if Qle_bool v 1.5 then v else 1.5).
  assert (Hab : 0 <= a /\ a <= 1 /\ 0 <= b /\ b <= 1).
  { subst a b.
    destruct (Qle_bool 0 s) eqn:Es; destruct (Qle_bool v 1.5) eqn:Ev;
      q_props; repeat split; lra. }
  destruct Hab as (Ha0 & Ha1 & Hb0 & Hb1).
  assert (Hp0 : 0 <= a * b) by nra.
  assert (Hp1 : a * b <= 1) by nra.
  assert (E : noLoad * a * b == noLoad * (a * b)) by ring.
  rewrite E. split; nra.
Qed.

(** X12.  For a supply voltage from 0 up to the rated voltage, a current
    not below 0 and a preset with an armature resistance not below 0 and a
    whole no-load speed, the estimated speed is between 0 and the no-load
    speed. *)
Theorem estimateSpeed_bounds (p : Preset) (noLoad : Z)
    (rated armR current supply : Q) :
  noLoadRPM p = Some (JS.Fin (inject_Z noLoad)) ->
  ratedVoltage p = JS.Fin rated ->
  armatureR p = JS.Fin armR ->
  (0 < noLoad)%Z -> 0 < rated -> 0 <= armR -> 0 <= current ->
  0 <= supply -> supply <= rated ->
  exists n : Q,
    rpm (estimateSpeed (mkEstimator p) current supply) = Some (JS.Fin n) /\
    0 <= n /\ n <= inject_Z noLoad.
Proof.
  intros Hn Hr Ha Hn0 Hr0 Ha0 Hc0 Hs0 Hs1.
  assert (HnQ : 0 < inject_Z noLoad)
    by (change 0 with (inject_Z 0); rewrite <- Zlt_Qlt; exact Hn0).
  rewrite (estimateSpeed_rational p (inject_Z noLoad) rated armR current
             supply) by (assumption || lra).
  eexists. split; [reflexivity |].
  apply round_between;
    apply (speed_product_bounds (inject_Z noLoad) rated armR current supply);
    assumption || lra.
Qed.

(** The hobby motor (7.2 V, 15000 rpm, 0.5 ohm) at 6 V and 2 A. *)
Lemma estimateSpeed_bounds_witness :
  exists n : Q,
    rpm (estimateSpeed (mkEstimator hobby_motor) 2%Q 6%Q)
    = Some (JS.Fin n) /\
    0 <= n /\ n <= inject_Z 15000.
Proof.
  apply (estimateSpeed_bounds hobby_motor 15000 7.2 0.5 2 6);
    try reflexivity; vm_compute; discriminate.
Defined.

(** X13.  The dial stays on its scale: for a preset with a no-load speed
    and a rated voltage above 0 and a supply voltage not below 0, the speed
    that [estimateSpeed] returns is turned by [getGaugeAngle] of the same
    estimator into an angle from -90 to 90 degrees, whatever the current. *)
Theorem estimateSpeed_gauge_range (p : Preset)
    (noLoad rated armR current supply : Q) :
  noLoadRPM p = Some (JS.Fin noLoad) ->
  ratedVoltage p = JS.Fin rated ->
  armatureR p = JS.Fin armR ->
  0 < noLoad -> 0 < rated -> 0 <= supply ->
  exists (n : JS.num) (a : Q),
    rpm (estimateSpeed (mkEstimator p) current supply) = Some n /\
    getGaugeAngle (mkEstimator p) n = JS.Fin a /\
    -90 <= a /\ a <= 90.
Proof.
  intros Hn Hr Ha Hn0 Hr0 Hs0.
  rewrite (estimateSpeed_rational p noLoad rated armR current supply)
    by (assumption || lra).
  match goal with
  | |- exists n a, Some ?t = Some n /\ _ => exists t
  end.
  assert (Hv0 : 0 <= supply / rated)
    by (apply Qle_shift_div_l; [exact Hr0 | lra]).
  match goal with
  | |- context [Qfloor (?x + (1 # 2))] =>
      assert (Hx : 0 <= x); [| generalize dependent x; intros prod Hx]
  end.
  { generalize dependent ((supply + - (current * armR)) / rated).
    generalize dependent (supply / rated). intros v Hv0 s.
    set (a := if Qle_bool 0 s then s else 0).
    set (b := if Qle_bool v 1.5 then v else 1.5).
    assert (Hab : 0 <= a /\ 0 <= b).
    { subst a b.
      destruct (Qle_bool 0 s) eqn:Es; destruct (Qle_bool v 1.5) eqn:Ev;
        q_props; split; lra. }
    destruct Hab as (Ha0 & Hb0).
    assert (Hp0 : 0 <= a * b) by nra.
    assert (E : noLoad * a * b == noLoad * (a * b)) by ring.
    rewrite E. nra. }
  assert (Hf : 0 <= inject_Z (Qfloor (prod + (1 # 2)))).
  { change 0 with (inject_Z 0). rewrite <- Zle_Qle.
    rewrite <- (Qfloor_Z 0). apply Qfloor_resp_le.
    change (inject_Z 0) with 0. lra. }
  generalize dependent (inject_Z (Qfloor (prod + (1 # 2)))). intros n Hn1.
  unfold getGaugeAngle. js_red. rewrite Hn. js_red.
  assert (Ez : Qeq_bool noLoad 0 = false) by (q_props; lra).
  unfold JS.or_else. js_red. rewrite Ez. js_red. rewrite Ez. js_red.
  assert (Hq : 0 <= n / noLoad)
    by (apply Qle_shift_div_l; [exact Hn0 | lra]).
  destruct (Qle_bool (n / noLoad) 1) eqn:E; q_props;
    eexists; (split; [reflexivity |]); (split; [reflexivity |]); lra.
Qed.

(** The small DC motor at 9 V, above its rated 6 V, and 0.5 A. *)
Lemma estimateSpeed_gauge_range_witness :
  exists (n : JS.num) (a : Q),
    rpm (estimateSpeed (mkEstimator small_dc_motor) 0.5%Q 9%Q) = Some n /\
    getGaugeAngle (mkEstimator small_dc_motor) n = JS.Fin a /\
    -90 <= a /\ a <= 90.
Proof.
  apply (estimateSpeed_gauge_range small_dc_motor 6000 6 3 0.5 9);
    try reflexivity; vm_compute; discriminate.
Defined.

End MotorExtras.

(** ** From the battery page to the motor page *)

Section TransferExtras.





End TransferExtras.

(** ** The magnetic field calculator *)

Section FieldExtras.

Import Field.

(** A quotient by 0 is never a rational. *)
Lemma div_zero_not_finite (a : JS.num) (z : Q) :
  z == 0 -> ~ JS.finite (JS.div a (JS.Fin z)).
Proof.
  intros Hz. apply Qeq_bool_iff in Hz.
  destruct a as [x | | |]; simpl; try rewrite Hz; try tauto.
  - unfold JS.scale_inf.
    destruct (Qeq_bool x 0); [| destruct (Qle_bool 0 x)]; simpl; tauto.
  - destruct (Qle_bool 0 z); simpl; tauto.
  - destruct (Qle_bool 0 z); simpl; tauto.
Qed.

(** The relative permeability of a name in the table of the constants. *)
Lemma lookup_muR_table (name : string) :
  existsb (String.eqb name) inherited_names = false ->
  lookup_muR (MU_R PHYSICS_CONSTANTS) name
  = if String.eqb "ferrite" name then JS.Fin 2000
    else if String.eqb "iron" name then JS.Fin 4000
    else if String.eqb "steel" name then JS.Fin 4500
    else JS.Fin 1.
Proof.
  intros H. unfold lookup_muR, PHYSICS_CONSTANTS. cbn [own MU_R].
  destruct (String.eqb_spec "air" name) as [<- | _]; [reflexivity |].
  destruct (String.eqb "ferrite" name); [reflexivity |].
  destruct (String.eqb "iron" name); [reflexivity |].
  destruct (String.eqb "steel" name); [reflexivity |].
  rewrite H. reflexivity.
Qed.

(** X15.  The material of a solenoid is looked up by name with 1 as the
    fallback: every name other than ferrite, iron and steel that is not a
    property every object inherits computes exactly as air, the default;
    an inherited name such as [constructor] makes the field [NaN]. *)
Theorem computeBFieldSolenoid_material (turns current length : JS.num)
    (name : string) :
  (name <> "ferrite"%string -> name <> "iron"%string ->
   name <> "steel"%string ->
   existsb (String.eqb name) inherited_names = false ->
   computeBFieldSolenoid new turns current length (Some (MatName name))
   = computeBFieldSolenoid new turns current length None) /\
  (existsb (String.eqb name) inherited_names = true ->
   B (computeBFieldSolenoid new turns current length (Some (MatName name)))
   = JS.NaN).
Proof.
  split.
  - intros Hf Hi Hs Hn. unfold computeBFieldSolenoid.
    cbn [constants new].
    rewrite (lookup_muR_table name Hn), (lookup_muR_table "air" eq_refl).
    destruct (String.eqb_spec "ferrite" name); [congruence |].
    destruct (String.eqb_spec "iron" name); [congruence |].
    destruct (String.eqb_spec "steel" name); [congruence |].
    reflexivity.
  - intros Hn. unfold computeBFieldSolenoid. cbn [constants new B].
    assert (E : lookup_muR (MU_R PHYSICS_CONSTANTS) name = JS.NaN).
    { unfold lookup_muR, PHYSICS_CONSTANTS. cbn [own MU_R].
      destruct (String.eqb_spec "air" name) as [<- | _];
        [discriminate Hn |].
      destruct (String.eqb_spec "ferrite" name) as [<- | _];
        [discriminate Hn |].
      destruct (String.eqb_spec "iron" name) as [<- | _];
        [discriminate Hn |].
      destruct (String.eqb_spec "steel" name) as [<- | _];
        [discriminate Hn |].
      rewrite Hn. reflexivity. }
    rewrite E. simpl.
    destruct turns, current, length; reflexivity.
Qed.

(** Copper is not in the table; [constructor] is inherited. *)
Lemma computeBFieldSolenoid_material_witness :
  computeBFieldSolenoid new (JS.Fin 50) (JS.Fin 1) (JS.Fin 0.05)
    (Some (MatName "copper"))
  = computeBFieldSolenoid new (JS.Fin 50) (JS.Fin 1) (JS.Fin 0.05) None /\
  B (computeBFieldSolenoid new (JS.Fin 50) (JS.Fin 1) (JS.Fin 0.05)
       (Some (MatName "constructor")))
  = JS.NaN.
Proof.
  split.
  - apply (proj1 (computeBFieldSolenoid_material (JS.Fin 50) (JS.Fin 1)
                    (JS.Fin 0.05) "copper"));
      try discriminate; reflexivity.
  - apply (proj2 (computeBFieldSolenoid_material (JS.Fin 50) (JS.Fin 1)
                    (JS.Fin 0.05) "constructor")).
    reflexivity.
Defined.

(** X18.  None of the three field functions guards its divisor: with a
    length, radius or distance of 0 the field is never a rational number
    (it is an infinity or [NaN]), whatever the other arguments. *)
Theorem field_zero_size (this : MagneticFieldCalculator)
    (turns current : JS.num) (material : option Material) (z : Q) :
  z == 0 ->
  ~ JS.finite (B (computeBFieldSolenoid this turns current z material)) /\
  ~ JS.finite (B (computeBFieldLoop this turns current z)) /\
  ~ JS.finite (B (computeBFieldWire this current z)).
Proof.
  intros Hz. split; [| split].
  - apply div_zero_not_finite. exact Hz.
  - unfold computeBFieldLoop. cbn [B].
    change (JS.mul (JS.Fin 2) (JS.Fin z)) with (JS.Fin (2 * z)).
    apply div_zero_not_finite. lra.
  - unfold computeBFieldWire, PI. cbn [B JS.mul].
    apply div_zero_not_finite. rewrite Hz. ring.
Qed.

(** A coil of length 0 in air. *)
Lemma field_zero_size_witness :
  ~ JS.finite (B (computeBFieldSolenoid new (JS.Fin 50) (JS.Fin 1) 0%Q None)).
Proof.
  apply (proj1 (field_zero_size new (JS.Fin 50) (JS.Fin 1) None 0
                  (Qeq_refl 0))).
Defined.

End FieldExtras.

(** ** The simulator, continued *)

(** Replaces a variable known to be finite by a rational of the same
    name. *)
Ltac fin_var x :=
  match goal with
  | H : JS.finite x |- _ => destruct x as [x | | |]; [clear H | contradiction H ..]
  end.

Section SimulatorExtras.

Import RCCar Spec.
Local Open Scope js_scope.

(** One tick counts at most one lap, and leaves the running flag, the track
    and the time of the last frame alone. *)
Lemma tick_lap_count (this : Sim) (dt : JS.num) :
  let this' := updatePhysics this dt in
  (lapCount (state this) <= lapCount (state this')
   <= lapCount (state this) + 1)%Z /\
  isRunning (state this') = isRunning (state this) /\
  track this' = track this /\ lastTime this' = lastTime this.
Proof.
  intros this'. subst this'. rewrite updatePhysics_summary.
  cbn [state lapCount isRunning track lastTime].
  destruct (_ >=? _); repeat split; lia.
Qed.

(** X20.  Along any sequence of ticks, whatever the throttle and the time
    steps, the lap count never decreases and grows by at most one lap per
    tick; no tick stops or starts the simulation (not even one that empties
    the battery) or changes the track. *)
Theorem ticks_lap_count (inputs : list (JS.num * JS.num)) (this : Sim) :
  Forall
    (fun s =>
       (lapCount (state this) <= lapCount (state s)
        <= lapCount (state this) + Z.of_nat (List.length inputs))%Z /\
       isRunning (state s) = isRunning (state this) /\
       track s = track this)
    (ticks this inputs).
Proof.
  revert this. induction inputs as [| [thr dt] rest IH]; intros this.
  - constructor.
  - cbn [ticks].
    destruct (tick_lap_count (set_throttle thr this) dt) as (Hl & Hr & Ht & _).
    change (state (set_throttle thr this)) with (state this) in Hl, Hr.
    change (track (set_throttle thr this)) with (track this) in Ht.
    set (this' := updatePhysics (set_throttle thr this) dt) in *.
    constructor.
    + cbn [List.length]. repeat split; [lia | lia | exact Hr | exact Ht].
    + eapply Forall_impl; [| exact (IH this')].
      cbn [List.length]. intros s (Hs & Hsr & Hst).
      repeat split; [lia | lia | congruence | congruence].
Qed.

(** One tick keeps a best lap time above 0 and does not raise it. *)
Lemma tick_best_lap (this : Sim) (dt : JS.num) :
  (0%Q <? bestLapTime (state this)) = true ->
  let this' := updatePhysics this dt in
  (0%Q <? bestLapTime (state this')) = true /\
  (bestLapTime (state this') <=? bestLapTime (state this)) = true.
Proof.
  intros H this'. subst this'. rewrite updatePhysics_summary.
  cbn [state bestLapTime]. unfold qualifies.
  assert (Hrefl : (bestLapTime (state this) <=? bestLapTime (state this))
                  = true).
  { destruct (bestLapTime (state this)); try discriminate; try reflexivity.
    simpl. q_props. lra. }
  destruct (_ >=? _); [| split; assumption].
  destruct (lapTime (state this) >? 0%Q) eqn:E1; [| split; assumption].
  destruct (lapTime (state this) <? bestLapTime (state this)) eqn:E2;
    [| split; assumption].
  cbn [andb]. split; [exact E1 |].
  destruct (lapTime (state this)), (bestLapTime (state this));
    simpl in *; try discriminate; try reflexivity.
  q_props. lra.
Qed.

(** X21.  The best lap time only improves: from a best lap time above 0, as
    the [Infinity] of a new or reset simulator, every simulator along any
    sequence of ticks has a best lap time that is above 0 and at most the
    one at the start. *)
Theorem ticks_best_lap (inputs : list (JS.num * JS.num)) (this : Sim) :
  (0%Q <? bestLapTime (state this)) = true ->
  Forall
    (fun s =>
       (0%Q <? bestLapTime (state s)) = true /\
       (bestLapTime (state s) <=? bestLapTime (state this)) = true)
    (ticks this inputs).
Proof.
  revert this. induction inputs as [| [thr dt] rest IH]; intros this H.
  - constructor.
  - cbn [ticks].
    destruct (tick_best_lap (set_throttle thr this) dt H) as (H0 & Hle).
    change (state (set_throttle thr this)) with (state this) in Hle.
    set (this' := updatePhysics (set_throttle thr this) dt) in *.
    constructor; [split; assumption |].
    eapply Forall_impl; [| exact (IH this' H0)].
    intros s (Hs0 & Hsle). split; [exact Hs0 |].
    exact (le_trans _ _ _ Hsle Hle).
Qed.

(** Three ticks of the new simulator at full throttle. *)
Lemma ticks_best_lap_witness :
  Forall
    (fun s =>
       (0%Q <? bestLapTime (state s)) = true /\
       (bestLapTime (state s) <=? bestLapTime (state new)) = true)
    (ticks new [(JS.Fin 1, JS.Fin 0.1); (JS.Fin 1, JS.Fin 0.1);
                (JS.Fin 1, JS.Fin 0.1)]).
Proof.
  apply ticks_best_lap. reflexivity.
Defined.

(** At rest with the throttle at 0 no force acts: the acceleration is 0. *)
Lemma calculateAcceleration_rest (this : Sim) :
  configured (params this) ->
  velocity (state this) ≡ 0%Q -> throttle (params this) ≡ 0%Q ->
  calculateAcceleration this ≡ 0%Q.
Proof.
  destruct this as [[pos vel acc ch lc lt best E run]
                      [m r eff mu k tau V I cap R thr] [L] last].
  unfold configured, finite_params, nonzero. cbn [state params velocity mass
    wheelRadius motorEfficiency frictionCoeff airResistance maxTorque
    batteryVoltage batteryCurrent batteryCapacity internalR throttle].
  intros (Hf & Hm & Hr & _) Hv Ht. decompose [and] Hf. clear Hf.
  fin_vars. destruct vel as [v | | |]; try contradiction.
  unfold calculateAcceleration, calculateMotorForce, calculateFriction,
    calculateAirResistance.
  js_red.
  apply Qeq_bool_false in Hm, Hr. rewrite Hr.
  assert (Hlt : JS.Qltb 0 v = false).
  { destruct (JS.Qltb 0 v) eqn:Elt; [| reflexivity]. q_props. lra. }
  rewrite Hlt. js_red. rewrite Hm. js_red.
  q_props. rewrite Hv, Ht. field. split; assumption.
Qed.

(** The throttle the tick uses is 0 when the configured throttle is 0 or
    the battery is empty. *)
Lemma throttled_zero (this : Sim) :
  throttle (params this) ≡ 0%Q \/
  (batteryCharge (state this) <=? 0%Q) = true ->
  throttle (params (throttled this)) ≡ 0%Q.
Proof.
  unfold throttled. intros [H | H].
  - destruct (_ <=? _); [| exact H].
    destruct this as [s [] t l]. simpl. reflexivity.
  - rewrite H. destruct this as [s [] t l]. simpl. reflexivity.
Qed.

(** X22.  Rest is a fixed point: a car at rest on the track with the
    throttle at 0, or with an empty battery whatever the throttle, stays
    where it is with velocity 0, uses no energy and keeps its charge and lap
    count, for every rational time step (a rational configuration with a
    mass and a wheel radius other than 0). *)
Theorem updatePhysics_rest (this : Sim) (dt : JS.num) :
  configured (params this) -> JS.finite dt ->
  velocity (state this) ≡ 0%Q ->
  JS.finite (position (state this)) ->
  (position (state this) <? length (track this)) = true ->
  throttle (params this) ≡ 0%Q \/
  (batteryCharge (state this) <=? 0%Q) = true ->
  let this' := updatePhysics this dt in
  velocity (state this') ≡ 0%Q /\
  position (state this') ≡ position (state this) /\
  totalEnergy (state this') = totalEnergy (state this) /\
  batteryCharge (state this') = batteryCharge (state this) /\
  lapCount (state this') = lapCount (state this).
Proof.
  intros Hp Hdt Hv Hpos Hon Hthr this'. subst this'.
  rewrite updatePhysics_summary.
  cbn [state position velocity totalEnergy batteryCharge lapCount].
  pose proof (throttled_zero this Hthr) as Ht.
  assert (Ha : calculateAcceleration (throttled this) ≡ 0%Q).
  { apply calculateAcceleration_rest.
    - apply throttled_configured. exact Hp.
    - rewrite throttled_state. exact Hv.
    - exact Ht. }
  revert Ht Ha.
  generalize (calculateAcceleration (throttled this)).
  generalize (throttle (params (throttled this))).
  intros thr a Ht Ha.
  destruct thr as [t | | |]; try contradiction.
  destruct a as [a0 | | |]; try contradiction.
  destruct (velocity (state this)) as [v | | |]; try contradiction.
  destruct (position (state this)) as [x | | |]; try contradiction.
  destruct dt as [d | | |]; try contradiction.
  destruct (length (track this)) as [l | | |]; try discriminate.
  - simpl in Hv, Ht, Ha, Hon.
    assert (Hgt : (JS.Fin t >? 0%Q) = false).
    { simpl. destruct (JS.Qltb 0 t) eqn:E; [| reflexivity]. q_props. lra. }
    rewrite Hgt.
    assert (Hmax : JS.max 0%Q (JS.Fin v + JS.Fin a0 * JS.Fin d)
                   = JS.Fin (v + a0 * d) \/
                   JS.max 0%Q (JS.Fin v + JS.Fin a0 * JS.Fin d) = JS.Fin 0).
    { simpl. destruct (Qle_bool 0 (v + a0 * d)); [left | right];
        reflexivity. }
    assert (Hz : v + a0 * d == 0) by (rewrite Hv, Ha; ring).
    destruct Hmax as [-> | ->]; js_red.
    + assert (Hw : Qle_bool l (x + (v + a0 * d) * d) = false).
      { q_props. rewrite Hz. lra. }
      rewrite Hw. repeat split; try reflexivity.
      * exact Hz.
      * js_red. rewrite Hz. ring.
    + assert (Hw : Qle_bool l (x + 0 * d) = false) by (q_props; lra).
      rewrite Hw. repeat split; try reflexivity.
      js_red. ring.
  - simpl in Hv, Ht, Ha.
    assert (Hgt : (JS.Fin t >? 0%Q) = false).
    { simpl. destruct (JS.Qltb 0 t) eqn:E; [| reflexivity]. q_props. lra. }
    rewrite Hgt.
    assert (Hz : v + a0 * d == 0) by (rewrite Hv, Ha; ring).
    js_red.
    destruct (Qle_bool 0 (v + a0 * d)); js_red; repeat split;
      try reflexivity; try exact Hz; try (rewrite Hz); ring.
Qed.

(** The default car before the throttle is touched, one frame of 16 ms. *)
Lemma updatePhysics_rest_witness :
  let this' := updatePhysics new 0.016%Q in
  velocity (state this') ≡ 0%Q /\
  position (state this') ≡ position (state new) /\
  totalEnergy (state this') = totalEnergy (state new) /\
  batteryCharge (state this') = batteryCharge (state new) /\
  lapCount (state this') = lapCount (state new).
Proof.
  apply (updatePhysics_rest new 0.016%Q).
  - unfold configured, finite_params, nonzero. simpl.
    repeat split; try exact I; intros H; discriminate H.
  - exact I.
  - reflexivity.
  - exact I.
  - reflexivity.
  - left. reflexivity.
Defined.

(** X23.  There is no static friction: friction acts only on a moving
    car, so from rest with a live battery every throttle above 0 gives an
    acceleration above 0 and, after a time step above 0, a velocity above 0,
    however large the friction coefficient and however weak the motor. *)
Theorem updatePhysics_starts_moving (this : Sim) (dt : JS.num) :
  finite_params (params this) ->
  positive (mass (params this)) -> positive (wheelRadius (params this)) ->
  positive (motorEfficiency (params this)) ->
  positive (maxTorque (params this)) -> positive (throttle (params this)) ->
  velocity (state this) ≡ 0%Q ->
  (batteryCharge (state this) <=? 0%Q) = false ->
  JS.finite dt -> positive dt ->
  let this' := updatePhysics this dt in
  positive (acceleration (state this')) /\ positive (velocity (state this')).
Proof.
  intros Hf Hm Hr He Htau Hthr Hv Hch Hdt Hdt0 this'. subst this'.
  rewrite updatePhysics_summary. cbn [state acceleration velocity].
  assert (Ht : throttled this = this) by (unfold throttled; rewrite Hch;
                                           reflexivity).
  rewrite Ht.
  destruct this as [[pos vel acc ch lc lt best E run]
                      [m r eff mu k tau V I cap R thr] [L] last].
  unfold finite_params, positive in *. cbn [state params velocity mass
    wheelRadius motorEfficiency frictionCoeff airResistance maxTorque
    batteryVoltage batteryCurrent batteryCapacity internalR throttle] in *.
  decompose [and] Hf. clear Hf.
  fin_var m; fin_var r; fin_var eff; fin_var mu; fin_var k; fin_var tau;
    fin_var V; fin_var I; fin_var cap; fin_var R; fin_var thr; fin_var dt.
  destruct vel as [v | | |]; try contradiction.
  unfold calculateAcceleration, calculateMotorForce, calculateFriction,
    calculateAirResistance.
  js_red. q_props.
  assert (Er : Qeq_bool r 0 = false) by (q_props; lra).
  assert (Em : Qeq_bool m 0 = false) by (q_props; lra).
  assert (Elt : JS.Qltb 0 v = false).
  { destruct (JS.Qltb 0 v) eqn:Elt; [| reflexivity]. q_props. lra. }
  rewrite Er, Elt. js_red. rewrite Em. js_red.
  assert (Hforce : 0 < tau * thr / r * eff).
  { apply Qmult_lt_0_compat; [| exact He].
    apply Qlt_shift_div_l; [exact Hr |].
    assert (Hp : 0 < tau * thr) by (apply Qmult_lt_0_compat; assumption).
    lra. }
  assert (Ha : 0 < (tau * thr / r * eff + 0 + - (k * v * Qabs v)) / m).
  { apply Qlt_shift_div_l; [exact Hm |].
    assert (Hk : k * v * Qabs v == 0) by (rewrite Hv; ring).
    rewrite Hk. lra. }
  revert Ha.
  generalize ((tau * thr / r * eff + 0 + - (k * v * Qabs v)) / m)%Q.
  intros a Ha.
  assert (Hvel : 0 < v + a * dt).
  { rewrite Hv. assert (Hp : 0 < a * dt)
      by (apply Qmult_lt_0_compat; assumption). lra. }
  assert (Hle : Qle_bool 0 (v + a * dt) = true) by (q_props; lra).
  rewrite Hle. js_red. split; q_props; assumption.
Qed.

(** The default car with the friction coefficient at 5 and the throttle at
    1 percent. *)
Lemma updatePhysics_starts_moving_witness :
  let this := onFrictionInput (onThrottleInput new 1%Q) 5%Q in
  let this' := updatePhysics this 0.016%Q in
  positive (acceleration (state this')) /\ positive (velocity (state this')).
Proof.
  intros this.
  apply (updatePhysics_starts_moving this 0.016%Q);
    try reflexivity; try exact I.
  unfold finite_params. simpl. tauto.
Defined.

(** A consistent charge is a percentage, and it is 0 exactly when the
    energy used has reached the full capacity. *)
Lemma battery_ready_bounds (this : Sim) :
  battery_ready this -> (0%Q <=? totalEnergy (state this)) = true ->
  (0%Q <=? batteryCharge (state this)) = true /\
  (batteryCharge (state this) <=? 100%Q) = true /\
  (batteryCharge (state this) ≡ 0%Q <->
   (fullCapacity (params this) <=? totalEnergy (state this)) = true).
Proof.
  destruct this as [[pos vel acc ch lc lt best E run]
                      [m r eff mu k tau V I cap R thr] [L] last].
  unfold battery_ready, battery_consistent, positive, fullCapacity.
  cbn [state params totalEnergy batteryCharge batteryVoltage batteryCurrent
       batteryCapacity].
  intros (HV & HVp & HI & HIp & Hc & Hcp & HE & Hcons) HE0.
  fin_var V; fin_var I; fin_var cap; fin_var E.
  js_red. q_props.
  assert (HF : (0 < V * (cap * 3.6))%Q).
  { apply Qmult_lt_0_compat; [exact HVp |].
    apply Qmult_lt_0_compat; [exact Hcp | reflexivity]. }
  assert (HF0 : Qeq_bool (V * (cap * 3.6))%Q 0 = false)
    by (apply Qeq_bool_false; lra).
  rewrite HF0 in Hcons. js_red.
  assert (Hq : (0 <= E / (V * (cap * 3.6)))%Q)
    by (apply Qle_shift_div_l; [exact HF | lra]).
  assert (Hfull : (V * (cap * 3.6) <= E
                   <-> 1 <= E / (V * (cap * 3.6)))%Q).
  { split; intros H.
    - apply Qle_shift_div_l; [exact HF | lra].
    - assert (Eq : (E == E / (V * (cap * 3.6)) * (V * (cap * 3.6)))%Q)
        by (field; lra).
      rewrite Eq. nra. }
  revert Hq Hfull Hcons. generalize (E / (V * (cap * 3.6)))%Q. intros u Hq Hfull.
  destruct ch as [c | | |];
    try (destruct (Qle_bool 0 _); intros Hcons; contradiction Hcons).
  destruct (Qle_bool 0 (100 + - (u * 100))) eqn:Hu; js_red; intros Hcons;
    q_props; rewrite !Qle_bool_iff, Hfull; repeat split; try lra;
    intros; lra.
Qed.

(** X24.  Along any sequence of ticks from a simulator whose charge is
    consistent with an energy used that is not negative, with positive
    battery parameters, the battery charge stays a percentage from 0 to 100,
    and it reads 0 exactly when the energy used has reached the full
    capacity [batteryVoltage * batteryCapacity * 3.6] J. *)
Theorem ticks_battery_bounds (inputs : list (JS.num * JS.num)) (this : Sim) :
  battery_ready this -> (0%Q <=? totalEnergy (state this)) = true ->
  Forall tick_input inputs ->
  Forall
    (fun s =>
       (0%Q <=? batteryCharge (state s)) = true /\
       (batteryCharge (state s) <=? 100%Q) = true /\
       (batteryCharge (state s) ≡ 0%Q <->
        (fullCapacity (params s) <=? totalEnergy (state s)) = true))
    (ticks this inputs).
Proof.
  revert this. induction inputs as [| [thr dt] rest IH]; intros this Hb HE Hd.
  - constructor.
  - inversion Hd as [| ? ? Hd1 Hd2]; subst.
    destruct (tick_battery_step this thr dt Hb Hd1) as [[Hstep _] Hb'].
    cbn [ticks].
    assert (HE' : (0%Q <=? totalEnergy
                     (state (updatePhysics (set_throttle thr this) dt)))
                  = true) by exact (le_trans _ _ _ HE Hstep).
    constructor.
    + apply battery_ready_bounds; assumption.
    + apply IH; assumption.
Qed.

(** The new simulator held at full throttle for three frames. *)
Lemma ticks_battery_bounds_witness :
  Forall
    (fun s =>
       (0%Q <=? batteryCharge (state s)) = true /\
       (batteryCharge (state s) <=? 100%Q) = true /\
       (batteryCharge (state s) ≡ 0%Q <->
        (fullCapacity (params s) <=? totalEnergy (state s)) = true))
    (ticks new [(JS.Fin 1, JS.Fin 0.1); (JS.Fin 1, JS.Fin 0.1);
                (JS.Fin 1, JS.Fin 0.1)]).
Proof.
  apply ticks_battery_bounds.
  - unfold battery_ready, battery_consistent, positive. simpl.
    repeat split; reflexivity.
  - reflexivity.
  - unfold tick_input. repeat constructor.
Defined.

(** X25.  A frame of a running simulator is one tick whose time step is
    the time since the last frame in seconds, never more than 0.1 s; the
    step is 0 on a frame that finds no time of a last frame (the first
    frames, [lastTime] being 0), and it is not negative when the timestamps
    do not go back.  The frame records its timestamp whether the simulator
    runs or not. *)
Theorem animate_frame (this : Sim) (timestamp last : Q) :
  lastTime this = JS.Fin last ->
  lastTime (animate this timestamp) = JS.Fin timestamp /\
  (isRunning (state this) = true ->
   exists dt : Q,
     animate this timestamp
     = updatePhysics (set_lastTime timestamp this) dt /\
     dt <= 0.1 /\
     (last == 0 -> dt == 0) /\
     (~ last == 0 -> dt == Qmin ((timestamp - last) / 1000) 0.1) /\
     (last <= timestamp -> 0 <= dt)).
Proof.
  intros Hl. unfold animate. rewrite Hl. cbn [JS.truthy].
  destruct (Qeq_bool last 0) eqn:E0; cbn [negb].
  - (* no time of a last frame yet *)
    cbn [lastTime set_lastTime state params track].
    split.
    + destruct (isRunning (state this)); [| reflexivity].
      apply (tick_lap_count
               (mkSim (state this) (params this) (track this)
                  (JS.Fin timestamp))).
    + intros Hrun. rewrite Hrun. js_red.
      change (Qeq_bool 1000 0) with false. js_red.
      assert (Ez : (timestamp + - timestamp) / 1000 == 0) by (field).
      assert (Hle : Qle_bool ((timestamp + - timestamp) / 1000) 0.1 = true)
        by (q_props; rewrite Ez; discriminate).
      rewrite Hle. eexists. split; [reflexivity |].
      q_props. rewrite Ez. repeat split; try lra; try discriminate.
  - rewrite Hl. cbn [lastTime set_lastTime state params track].
    split.
    + destruct (isRunning (state this)); [| reflexivity].
      apply (tick_lap_count
               (mkSim (state this) (params this) (track this)
                  (JS.Fin timestamp))).
    + intros Hrun. rewrite Hrun. js_red.
      change (Qeq_bool 1000 0) with false. js_red.
      assert (Hsign : last <= timestamp
                      -> 0 <= (timestamp + - last) / 1000).
      { intros H. apply Qle_shift_div_l; [reflexivity | lra]. }
      q_props.
      destruct (Qle_bool ((timestamp + - last) / 1000) 0.1) eqn:Hle;
        eexists; (split; [reflexivity |]); q_props;
        repeat split; try lra; try (intros H; contradiction).
      * intros _. symmetry. apply Q.min_l. exact Hle.
      * intros _. symmetry. apply Q.min_r. unfold Qminus. lra.
Qed.

(** A running simulator whose last frame was at 1000 ms, in a frame at
    5000 ms. *)
Lemma animate_frame_witness :
  lastTime (animate (set_lastTime 1000%Q (onThrottleInput new 100%Q)) 5000%Q)
  = JS.Fin 5000.
Proof.
  apply (proj1 (animate_frame
                  (set_lastTime 1000%Q (onThrottleInput new 100%Q))
                  5000 1000 eq_refl)).
Defined.

End SimulatorExtras.

(** ** Stored settings and stored battery data *)

Section StorageExtras.

Import Storage Main Pages.

(** A single write keeps an item it does not name, unless it clears. *)
Lemma write_other_key (store : Storage.t) (w : Write) (key : string) :
  key <> "chargedup_battery_for_physics"%string ->
  key <> "chargedup_motor_for_integrated"%string ->
  (is_theme w = true -> key <> THEME) ->
  (is_text_size w = true -> key <> TEXT_SIZE) ->
  getItem (write store w) key
  = if is_clear w then None else getItem store key.
Proof.
  intros Hb Hm Ht Hs.
  destruct w as [json | json | theme | size |];
    cbn [write is_clear setTheme setTextSize fst];
    unfold getItem, setItem, removeItem.
  - destruct (String.eqb_spec key "chargedup_battery_for_physics");
      [contradiction | reflexivity].
  - destruct (String.eqb_spec key "chargedup_motor_for_integrated");
      [contradiction | reflexivity].
  - destruct (String.eqb_spec key THEME); [| reflexivity].
    exfalso. apply Ht; [reflexivity | assumption].
  - destruct (String.eqb size "default"); cbn [fst];
      (destruct (String.eqb_spec key TEXT_SIZE); [| reflexivity]);
      exfalso; (apply Hs; [reflexivity | assumption]).
  - reflexivity.
Qed.

(** No write of the pages stores the battery data item, and clearing
    removes it. *)
Lemma writes_chemistry_item (ws : list Write) (store : Storage.t) :
  getItem (writes store ws) CHEMISTRY_DATA
  = if existsb is_clear ws then None else getItem store CHEMISTRY_DATA.
Proof.
  revert store. induction ws as [| w rest IH]; intros store.
  - reflexivity.
  - cbn [writes fold_left existsb]. fold (writes (write store w) rest).
    rewrite IH.
    rewrite (write_other_key store w CHEMISTRY_DATA);
      try (intros; discriminate).
    destruct (is_clear w); cbn [orb]; [| reflexivity].
    destruct (existsb is_clear rest); reflexivity.
Qed.

(** X27.  The battery data the simulator loads is never written by the
    pages: whatever the battery page, the motor page and the settings store,
    the item ['chargedup-chemistry-data'] stays as it was, or is gone once
    all data was cleared; so in a browser whose storage started empty
    [loadBatteryData()] changes nothing and the simulator runs on its
    default battery. *)
Theorem pages_never_store_battery_data (ws : list Write) :
  (forall store : Storage.t,
     getItem (writes store ws) CHEMISTRY_DATA
     = if existsb is_clear ws then None
       else getItem store CHEMISTRY_DATA) /\
  (forall (parse : string -> option RCCar.BatteryData) (this : RCCar.Sim),
     RCCar.loadStoredBatteryData parse (writes Storage.empty ws) this
     = this).
Proof.
  split.
  - intros store. apply writes_chemistry_item.
  - intros parse this. unfold RCCar.loadStoredBatteryData.
    change "chargedup-chemistry-data"%string with CHEMISTRY_DATA.
    rewrite writes_chemistry_item.
    destruct (existsb is_clear ws); reflexivity.
Qed.

(** X28.  What [saveChemistryData] stores is what the simulator loads: after
    saving a text that is not empty and any later writes of the pages that
    do not clear all data, [getChemistryData()] finds that text and
    [loadBatteryData()] assigns the parameters of its parse; after
    [clearChemistryData()] nothing is found and nothing is loaded. *)
Theorem saveChemistryData_round_trip (json : string) (ws : list Write)
    (store : Storage.t)
    (parse : string -> option RCCar.BatteryData) (this : RCCar.Sim) :
  json <> ""%string -> existsb is_clear ws = false ->
  let store' := writes (saveChemistryData json store) ws in
  getChemistryData store' = Some json /\
  RCCar.loadStoredBatteryData parse store' this
  = RCCar.loadBatteryData this (parse json) /\
  getChemistryData (clearChemistryData store') = None /\
  RCCar.loadStoredBatteryData parse (clearChemistryData store') this = this.
Proof.
  intros Hj Hc store'.
  assert (Hitem : getItem store' CHEMISTRY_DATA = Some json).
  { subst store'. rewrite writes_chemistry_item, Hc.
    unfold saveChemistryData, getItem, setItem.
    rewrite String.eqb_refl. reflexivity. }
  assert (Hne : String.eqb json "" = false)
    by (apply String.eqb_neq; exact Hj).
  assert (Hgone : getItem (clearChemistryData store') CHEMISTRY_DATA = None).
  { unfold clearChemistryData, getItem, removeItem.
    rewrite String.eqb_refl. reflexivity. }
  unfold getChemistryData, RCCar.loadStoredBatteryData.
  change "chargedup-chemistry-data"%string with CHEMISTRY_DATA.
  rewrite Hitem, Hgone. cbn [Storage.truthy]. rewrite Hne.
  repeat split; reflexivity.
Qed.

(** A stored pack of 6 V, then a theme change and a transfer to the motor
    page. *)
Lemma saveChemistryData_round_trip_witness :
  let parse (_ : string) :=
    Some (RCCar.mkBatteryData (Some (JS.Fin 6)) None None None) in
  let store' :=
    writes (saveChemistryData "{packVoltage:6}" Storage.empty)
      [SetTheme "light"; TransferToPhysics "{}"] in
  RCCar.loadStoredBatteryData parse store' RCCar.new
  = RCCar.loadBatteryData RCCar.new
      (Some (RCCar.mkBatteryData (Some (JS.Fin 6)) None None None)).
Proof.
  intros parse store'.
  apply (saveChemistryData_round_trip "{packVoltage:6}"
           [SetTheme "light"; TransferToPhysics "{}"] Storage.empty parse
           RCCar.new); [discriminate | reflexivity].
Defined.

(** The theme item after writes that neither set the theme nor clear. *)
Lemma writes_theme_item (ws : list Write) (store : Storage.t) :
  existsb is_theme ws = false -> existsb is_clear ws = false ->
  getItem (writes store ws) THEME = getItem store THEME.
Proof.
  revert store. induction ws as [| w rest IH]; intros store Ht Hc.
  - reflexivity.
  - cbn [existsb] in Ht, Hc. apply orb_false_iff in Ht, Hc.
    destruct Ht as [Ht1 Ht2], Hc as [Hc1 Hc2].
    cbn [writes fold_left]. fold (writes (write store w) rest).
    rewrite (IH _ Ht2 Hc2).
    rewrite (write_other_key store w THEME);
      try (intros; discriminate); [rewrite Hc1; reflexivity |].
    rewrite Ht1. discriminate.
Qed.

(** The text size item after writes that neither set the text size nor
    clear. *)
Lemma writes_text_size_item (ws : list Write) (store : Storage.t) :
  existsb is_text_size ws = false -> existsb is_clear ws = false ->
  getItem (writes store ws) TEXT_SIZE = getItem store TEXT_SIZE.
Proof.
  revert store. induction ws as [| w rest IH]; intros store Ht Hc.
  - reflexivity.
  - cbn [existsb] in Ht, Hc. apply orb_false_iff in Ht, Hc.
    destruct Ht as [Ht1 Ht2], Hc as [Hc1 Hc2].
    cbn [writes fold_left]. fold (writes (write store w) rest).
    rewrite (IH _ Ht2 Hc2).
    rewrite (write_other_key store w TEXT_SIZE);
      try (intros; discriminate); [rewrite Hc1; reflexivity |].
    rewrite Ht1. discriminate.
Qed.

(** X29.  The settings survive a reload: after [setTheme] and
    [setTextSize], in either order, and any later writes that set neither
    and do not clear all data, [initTheme()] on a freshly loaded page sets
    the theme that was chosen (dark for the empty text) and the text size
    that was chosen, or no text size attribute for the default size. *)
Theorem settings_reload (theme size : string) (ws : list Write)
    (page : Storage.t * Document) :
  existsb is_theme ws = false -> existsb is_text_size ws = false ->
  existsb is_clear ws = false ->
  let expected :=
    {| data_theme :=
         Some (if String.eqb theme "" then "dark"%string else theme);
       data_text_size :=
         if String.eqb size "default" || String.eqb size ""
         then None else Some size |} in
  initTheme (writes (fst (setTextSize size (setTheme theme page))) ws) loaded
  = expected /\
  initTheme (writes (fst (setTheme theme (setTextSize size page))) ws) loaded
  = expected.
Proof.
  intros Ht Hs Hc expected. subst expected. destruct page as [store doc].
  unfold initTheme.
  rewrite !(writes_theme_item ws _ Ht Hc), !(writes_text_size_item ws _ Hs Hc).
  unfold setTheme, setTextSize.
  destruct (String.eqb size "default") eqn:Ed; cbn [fst orb];
    unfold getItem, setItem, removeItem;
    repeat rewrite String.eqb_refl;
    change (String.eqb THEME TEXT_SIZE) with false;
    change (String.eqb TEXT_SIZE THEME) with false;
    cbn [Storage.truthy loaded data_theme data_text_size];
    destruct (String.eqb theme ""); destruct (String.eqb size "");
    cbn [negb]; split; reflexivity.
Qed.

(** The light theme and the large text, then a transfer to the motor
    page. *)
Lemma settings_reload_witness :
  initTheme
    (writes (fst (setTextSize "large" (setTheme "light" (Storage.empty, loaded))))
       [TransferToPhysics "{}"]) loaded
  = {| data_theme := Some "light"%string;
       data_text_size := Some "large"%string |}.
Proof.
  apply (proj1 (settings_reload "light" "large" [TransferToPhysics "{}"]
                  (Storage.empty, loaded) eq_refl eq_refl eq_refl)).
Defined.

End StorageExtras.
